(** * Token-based authentication core of the collaboration backend

    A shallow embedding of [backend/app/services/auth.py]: the credential
    hasher ([verify_password], [get_password_hash]), the token issuer
    ([create_access_token], [create_refresh_token]), the token decoder
    ([decode_token]) and the identity resolver ([get_current_user],
    [get_current_active_user]), together with the module-level settings.

    Python exceptions are values of [exn] carried by the [result] monad;
    [try_except] is a [try] block with its handler.  The two third-party
    libraries the module calls, python-jose and bcrypt, are modelled in the
    modules [jwt] and [bcrypt] at the level the module observes them:
    which exception class is raised, and which payload or hash comes back.
    The keyed primitives themselves (HMAC, the bcrypt digest) are section
    variables, so that every theorem holds for every such function.

    Conventions.  A token string and a stored hash string are represented
    by what the library parses out of them.  A password is its UTF-8
    bytes.  The clock ([datetime.utcnow()]) and the random draw
    ([random.randint], [bcrypt.gensalt]) are arguments of the function that
    reads them; a call to [decode_token] reads the clock once.  Logging is
    left out. *)

From Stdlib Require Import ZArith String Ascii List Bool Lia.
From Stdlib Require Import DecimalString.
From Stdlib Require DecimalPos.
From stdpp Require Import base option gmap strings.

Local Open Scope string_scope.
Local Open Scope Z_scope.

(** ** Python values *)

(** The JSON-representable Python values that occur as claim values:
    [None], [bool], [int] and [str]. *)
Inductive json :=
  | JNull
  | JBool (b : bool)
  | JInt (n : Z)
  | JStr (s : string).

#[global] Instance json_eq_dec : EqDecision json.
Proof. solve_decision. Defined.

(** A [datetime] is its number of microseconds since the epoch, a
    [timedelta] a number of microseconds. *)
Definition datetime := Z.
Definition timedelta := Z.

(** Values of the dictionary handed to [jwt.encode]: JSON values, or the
    [datetime] objects the issuer stores under [exp] and [iat]. *)
Inductive pyobj :=
  | PJson (v : json)
  | PDatetime (t : datetime).

Definition isinstance_str (v : json) : bool :=
  match v with JStr _ => true | _ => false end.

(** [str(v)] *)
Definition py_str (v : json) : string :=
  match v with
  | JNull => "None"
  | JBool true => "True"
  | JBool false => "False"
  | JInt n => NilZero.string_of_int (Z.to_int n)
  | JStr s => s
  end.

(** ** Exceptions *)

Inductive exn :=
  | ExpiredSignatureError (msg : string)
  | JWTClaimsError (msg : string)
  | JWTError (msg : string)
  | JWSError (msg : string)
  | ValueError (msg : string)
  | TypeError (msg : string)
  | SQLAlchemyError (msg : string)
  | HTTPException (status_code : Z) (detail : string).

#[global] Instance exn_eq_dec : EqDecision exn.
Proof. solve_decision. Defined.

(** [isinstance(e, JWTError)]: python-jose derives [ExpiredSignatureError]
    and [JWTClaimsError] from [JWTError]. *)
Definition is_JWTError (e : exn) : bool :=
  match e with
  | ExpiredSignatureError _ | JWTClaimsError _ | JWTError _ => true
  | _ => false
  end.

Definition is_JWSError (e : exn) : bool :=
  match e with JWSError _ => true | _ => false end.

Definition is_HTTPException (e : exn) : bool :=
  match e with HTTPException _ _ => true | _ => false end.

Inductive result (A : Type) :=
  | Return (a : A)
  | Raise (e : exn).
Arguments Return {A} a.
Arguments Raise {A} e.

#[global] Instance result_ret : MRet result := @Return.
#[global] Instance result_bind : MBind result := fun A B f m =>
  match m with
  | Return a => f a
  | Raise e => Raise e
  end.

(** [try: body  except ...: handler] *)
Definition try_except {A} (body : result A) (handler : exn -> result A) : result A :=
  match body with
  | Return a => Return a
  | Raise e => handler e
  end.

(** ** [int(...)] *)

Definition isspace (c : ascii) : bool :=
  let n := N_of_ascii c in
  ((9 <=? n) && (n <=? 13) || (28 <=? n) && (n <=? 32))%N.

Definition isdigit (c : ascii) : bool :=
  let n := N_of_ascii c in ((48 <=? n) && (n <=? 57))%N.

Definition digit_value (c : ascii) : Z := Z.of_N (N_of_ascii c) - 48.

Fixpoint lstrip (l : list ascii) : list ascii :=
  match l with
  | c :: l' => if isspace c then lstrip l' else l
  | [] => []
  end.

Definition strip (l : list ascii) : list ascii :=
  rev (lstrip (rev (lstrip l))).

(** Decimal digits, single underscores allowed between two digits. *)
Fixpoint digits (l : list ascii) (acc : Z) (after_digit : bool) : option Z :=
  match l with
  | [] => if after_digit then Some acc else None
  | c :: l' =>
      if isdigit c then digits l' (10 * acc + digit_value c) true
      else if Ascii.eqb c "_" then
        (if after_digit then digits l' acc false else None)
      else None
  end.

(** [int(s)] for a string [s] of ASCII text; [None] stands for
    [ValueError]. *)
Definition py_int_str (s : string) : option Z :=
  match strip (list_ascii_of_string s) with
  | "-"%char :: l => Z.opp <$> digits l 0 false
  | "+"%char :: l => digits l 0 false
  | l => digits l 0 false
  end.

(** [int(v)] *)
Definition py_int (v : json) : result Z :=
  match v with
  | JNull => Raise (TypeError "int() argument must be a string, a bytes-like object or a real number, not 'NoneType'")
  | JBool b => Return (if b then 1 else 0)
  | JInt n => Return n
  | JStr s =>
      match py_int_str s with
      | Some n => Return n
      | None => Raise (ValueError "invalid literal for int() with base 10")
      end
  end.

Example py_int_str_plain : py_int_str "42" = Some 42.
Proof. reflexivity. Qed.

Example py_int_str_padded : py_int_str " -1_000 " = Some (-1000).
Proof. reflexivity. Qed.

Example py_int_str_word : py_int_str "alice" = None.
Proof. reflexivity. Qed.

Example py_int_str_double_underscore : py_int_str "1__0" = None.
Proof. reflexivity. Qed.

Example py_str_int : py_str (JInt 17) = "17".
Proof. reflexivity. Qed.

Example py_str_negative : py_str (JInt (-3)) = "-3".
Proof. reflexivity. Qed.

(** ** python-jose, as [auth.py] uses it *)

Module jwt.

(** A token string is represented by what the library reads from it:
    either nothing ([Garbage]: fewer than three segments, bad base64, a
    header or payload that is not a JSON object), or a header naming the
    algorithm, a payload of claims and a signature segment. *)
Inductive token :=
  | Garbage (raw : string)
  | Jws (alg : string) (claims : gmap string json) (signature : string).

#[global] Instance token_eq_dec : EqDecision token.
Proof. solve_decision. Defined.

(** What the signature covers: the header and the payload segments. *)
Definition signing_input : Type := string * gmap string json.

(** Only the HMAC family is modelled; with any other algorithm name
    signing and verification raise. *)
Definition HMAC_ALGORITHMS : list string := ["HS256"; "HS384"; "HS512"].

(** [timegm(t.utctimetuple())]: whole seconds, the microseconds dropped. *)
Definition timegm (t : datetime) : Z := t `div` 1000000.

Record options := {
  verify_signature : bool;
  verify_exp : bool
}.

Definition default_options : options :=
  {| verify_signature := true; verify_exp := true |}.

(** [jwt.encode] turns a [datetime] under a time claim into seconds. *)
Definition intdate (claims : gmap string pyobj) (time_claim : string)
    : gmap string pyobj :=
  match claims !! time_claim with
  | Some (PDatetime t) => <[time_claim := PJson (JInt (timegm t))]> claims
  | _ => claims
  end.

Definition as_json (v : pyobj) : option json :=
  match v with PJson j => Some j | PDatetime _ => None end.

(** [json.dumps] refuses a [datetime]. *)
Definition json_dumps (claims : gmap string pyobj) : result (gmap string json) :=
  if bool_decide (map_Forall (fun _ v => is_Some (as_json v)) claims)
  then Return (omap as_json claims)
  else Raise (TypeError "Object of type datetime is not JSON serializable").

(** Claim validation, in the library's order.  [now] is the clock read by
    the library, [leeway] is 0, and no audience, issuer, subject or
    access token is passed by [auth.py]. *)
Definition int_claim (what : string) (v : json) : result Z :=
  try_except (py_int v) (fun e =>
    match e with
    | ValueError _ => Raise (JWTClaimsError (what ++ " must be an integer."))
    | _ => Raise e
    end).

Definition _validate_iat (claims : gmap string json) : result unit :=
  match claims !! "iat" with
  | None => Return tt
  | Some v => _ ← int_claim "Issued At claim (iat)" v; Return tt
  end.

Definition _validate_nbf (now : datetime) (claims : gmap string json) : result unit :=
  match claims !! "nbf" with
  | None => Return tt
  | Some v =>
      nbf ← int_claim "Not Before claim (nbf)" v;
      if timegm now <? nbf
      then Raise (JWTClaimsError "The token is not yet valid (nbf)")
      else Return tt
  end.

Definition _validate_exp (now : datetime) (claims : gmap string json) : result unit :=
  match claims !! "exp" with
  | None => Return tt
  | Some v =>
      exp ← int_claim "Expiration Time claim (exp)" v;
      if exp <? timegm now
      then Raise (ExpiredSignatureError "Signature has expired.")
      else Return tt
  end.

Definition _validate_aud (claims : gmap string json) : result unit :=
  match claims !! "aud" with
  | None => Return tt
  | Some (JStr _) => Raise (JWTClaimsError "Invalid audience")
  | Some _ => Raise (JWTClaimsError "Invalid claim format in token")
  end.

Definition _validate_sub (claims : gmap string json) : result unit :=
  match claims !! "sub" with
  | None => Return tt
  | Some v =>
      if isinstance_str v then Return tt
      else Raise (JWTClaimsError "Subject must be a string")
  end.

Definition _validate_jti (claims : gmap string json) : result unit :=
  match claims !! "jti" with
  | None => Return tt
  | Some v =>
      if isinstance_str v then Return tt
      else Raise (JWTClaimsError "JWT ID must be a string.")
  end.

Definition _validate_at_hash (claims : gmap string json) : result unit :=
  match claims !! "at_hash" with
  | None => Return tt
  | Some _ =>
      Raise (JWTClaimsError "No access_token provided to compare against at_hash claim.")
  end.

Definition _validate_claims (now : datetime) (claims : gmap string json)
    (opts : options) : result unit :=
  _ ← _validate_iat claims;
  _ ← _validate_nbf now claims;
  _ ← (if verify_exp opts then _validate_exp now claims else Return tt);
  _ ← _validate_aud claims;
  _ ← _validate_sub claims;
  _ ← _validate_jti claims;
  _validate_at_hash claims.

Section WithHmac.

(** The keyed MAC: algorithm name, key, signing input. *)
Variable hmac : string -> string -> signing_input -> string.

(** [jwt.encode(claims, key, algorithm=algorithm)] *)
Definition encode (claims : gmap string pyobj) (key : option string)
    (algorithm : string) : result token :=
  let claims := foldl intdate claims ["exp"; "iat"; "nbf"] in
  if bool_decide (algorithm ∈ HMAC_ALGORITHMS) then
    payload ← json_dumps claims;
    match key with
    | None => Raise (JWSError "Expecting a string- or bytes-formatted key.")
    | Some k => Return (Jws algorithm payload (hmac algorithm k (algorithm, payload)))
    end
  else Raise (JWSError "Algorithm not supported.").

(** [jws.verify(token, key, algorithms, verify)] *)
Definition jws_verify (tok : token) (key : string) (algorithms : list string)
    (verify : bool) : result (gmap string json) :=
  match tok with
  | Garbage _ => Raise (JWSError "Not enough segments")
  | Jws alg payload signature =>
      if verify then
        if bool_decide (alg ∈ algorithms) then
          if bool_decide (alg ∈ HMAC_ALGORITHMS) then
            if bool_decide (signature = hmac alg key (alg, payload))
            then Return payload
            else Raise (JWSError "Signature verification failed.")
          else Raise (JWSError "Invalid or unsupported algorithm")
        else Raise (JWSError "The specified alg value is not allowed")
      else Return payload
  end.

(** [jwt.decode(token, key, algorithms=algorithms, options=opts)] *)
Definition decode (now : datetime) (tok : token) (key : string)
    (algorithms : list string) (opts : options) : result (gmap string json) :=
  payload ← try_except (jws_verify tok key algorithms (verify_signature opts))
               (fun e => match e with
                         | JWSError msg => Raise (JWTError msg)
                         | _ => Raise e
                         end);
  _ ← _validate_claims now payload opts;
  Return payload.

End WithHmac.

End jwt.

(** ** bcrypt, as [auth.py] uses it *)

Module bcrypt.

(** A salt or hash string is represented by what the library reads from
    it: nothing ([Unparsable]), or a salt specification
    ([$2b$<cost>$<22 characters>]) followed by the rest of the string. *)
Inductive hash_string :=
  | Unparsable (raw : string)
  | Salted (salt : string) (rest : string).

#[global] Instance hash_string_eq_dec : EqDecision hash_string.
Proof. solve_decision. Defined.

(** Two behaviours differ between releases of the library and the
    repository pins none: whether a password of more than 72 bytes is cut
    to 72 bytes or refused, and whether a NUL byte is refused. *)
Record release := {
  rejects_long : bool;
  rejects_nul : bool
}.

Definition has_nul (password : string) : bool :=
  existsb (Ascii.eqb zero) (list_ascii_of_string password).

Section WithDigest.

Variable lib : release.
(** The digest of the key material under a salt specification. *)
Variable digest : string -> string -> string.

(** The bytes of the password that enter the digest. *)
Definition key_material (password : string) : result string :=
  if rejects_nul lib && has_nul password
  then Raise (ValueError "password may not contain NUL bytes")
  else if (72 <? String.length password)%nat then
    if rejects_long lib
    then Raise (ValueError "password cannot be longer than 72 bytes")
    else Return (substring 0 72 password)
  else Return password.

(** [bcrypt.hashpw(password, salt)] *)
Definition hashpw (password : string) (salt : hash_string) : result hash_string :=
  match salt with
  | Unparsable _ => Raise (ValueError "Invalid salt")
  | Salted s _ =>
      k ← key_material password;
      Return (Salted s (digest s k))
  end.

(** [bcrypt.checkpw(password, hashed_password)] *)
Definition checkpw (password : string) (hashed_password : hash_string) : result bool :=
  h ← hashpw password hashed_password;
  Return (bool_decide (h = hashed_password)).

(** [bcrypt.gensalt()], for the random salt drawn. *)
Definition gensalt (salt : string) : hash_string := Salted salt "".

End WithDigest.

End bcrypt.

(** ** Module-level settings of [auth.py] *)

Record settings := {
  SECRET_KEY : option string;
  ALGORITHM : string;
  ACCESS_TOKEN_EXPIRE_MINUTES : Z;
  REFRESH_TOKEN_EXPIRE_DAYS : Z
}.

(** [int(os.getenv(name, fallback))] *)
Definition getenv_int (env : gmap string string) (name : string) (fallback : Z)
    : result Z :=
  match env !! name with
  | None => Return fallback
  | Some s => py_int (JStr s)
  end.

(** Lines 19-25: what importing the module computes from the environment
    (the process environment completed by [load_dotenv]).  An exception
    here aborts the import, hence the start of the process. *)
Definition load_settings (env : gmap string string) : result settings :=
  let secret := env !! "JWT_SECRET" in
  let algorithm := default "HS256" (env !! "JWT_ALGORITHM") in
  minutes ← getenv_int env "JWT_ACCESS_TOKEN_EXPIRE_MINUTES" 30;
  days ← getenv_int env "JWT_REFRESH_TOKEN_EXPIRE_DAYS" 7;
  Return {| SECRET_KEY := secret;
            ALGORITHM := algorithm;
            ACCESS_TOKEN_EXPIRE_MINUTES := minutes;
            REFRESH_TOKEN_EXPIRE_DAYS := days |}.

(** ** The user record and the persistence collaborator *)

(** The columns of [app.models.user.User] the core reads; [is_active] is
    a nullable boolean column. *)
Record User := {
  user_id : Z;
  username : string;
  email : string;
  is_active : option bool
}.

#[global] Instance User_eq_dec : EqDecision User.
Proof. solve_decision. Defined.

(** [db.query(User).filter(User.id == n).first()]: a row, [None], or a
    database error. *)
Definition session := Z -> result (option User).

(** Truth value of an optional string and of a nullable boolean. *)
Definition truthy_str (s : option string) : bool :=
  match s with
  | Some s => negb (String.eqb s "")
  | None => false
  end.

Definition truthy_bool (b : option bool) : bool :=
  match b with Some true => true | _ => false end.

(** [sub in s] *)
Definition contains (sub s : string) : bool :=
  match String.index 0 sub s with Some _ => true | None => false end.

Definition timedelta_of (days minutes milliseconds : Z) : timedelta :=
  days * 86400000000 + minutes * 60000000 + milliseconds * 1000.

(** [if "sub" in d and not isinstance(d["sub"], str): d["sub"] = str(d["sub"])] *)
Definition sub_as_str (d : gmap string json) : gmap string json :=
  match d !! "sub" with
  | Some v => if isinstance_str v then d else <["sub" := JStr (py_str v)]> d
  | None => d
  end.

Section Auth.

Variable hmac : string -> string -> jwt.signing_input -> string.
Variable lib : bcrypt.release.
Variable digest : string -> string -> string.

(** The settings computed when the module was imported. *)
Variable cfg : settings.

(** *** Credential hasher *)

Definition verify_password (plain_password : string)
    (hashed_password : bcrypt.hash_string) : result bool :=
  try_except (bcrypt.checkpw lib digest plain_password hashed_password)
    (fun _ => Return false).

(** [salt] is the value drawn by [bcrypt.gensalt()]. *)
Definition get_password_hash (password : string) (salt : string)
    : result bcrypt.hash_string :=
  try_except (bcrypt.hashpw lib digest password (bcrypt.gensalt salt))
    (fun _ => Raise (HTTPException 500 "Password processing error")).

(** *** Token issuer *)

(** [current_time] is the value of [datetime.utcnow()] and [random_int]
    the value of [random.randint(1, 999)]. *)
Definition access_expire (expires_delta : option timedelta)
    (current_time : datetime) (random_int : Z) : datetime :=
  match expires_delta with
  | Some d =>
      if d =? 0
      then current_time + timedelta_of 0 (ACCESS_TOKEN_EXPIRE_MINUTES cfg) random_int
      else current_time + d + timedelta_of 0 0 random_int
  | None =>
      current_time + timedelta_of 0 (ACCESS_TOKEN_EXPIRE_MINUTES cfg) random_int
  end.

Definition create_access_token (data : gmap string json)
    (expires_delta : option timedelta)
    (current_time : datetime) (random_int : Z) : result jwt.token :=
  let to_encode := sub_as_str data in
  let expire := access_expire expires_delta current_time random_int in
  let to_encode : gmap string pyobj :=
    <["iat" := PDatetime current_time]>
      (<["type" := PJson (JStr "access")]>
        (<["exp" := PDatetime expire]> (PJson <$> to_encode))) in
  jwt.encode hmac to_encode (SECRET_KEY cfg) (ALGORITHM cfg).

Definition create_refresh_token (data : gmap string json)
    (current_time : datetime) (random_int : Z) : result jwt.token :=
  let to_encode := sub_as_str data in
  let expire :=
    current_time + timedelta_of (REFRESH_TOKEN_EXPIRE_DAYS cfg) 0 random_int in
  let to_encode : gmap string pyobj :=
    <["iat" := PDatetime current_time]>
      (<["type" := PJson (JStr "refresh")]>
        (<["exp" := PDatetime expire]> (PJson <$> to_encode))) in
  jwt.encode hmac to_encode (SECRET_KEY cfg) (ALGORITHM cfg).

(** *** Token decoder *)

Definition invalid_token_type (token_type : string) : exn :=
  HTTPException 401 ("Invalid token type. Expected " +:+ token_type +:+ " token.").

(** [token_type and payload.get("type") != token_type] *)
Definition type_mismatch (token_type : option string)
    (payload : gmap string json) : bool :=
  truthy_str token_type &&
  negb (bool_decide (payload !! "type" = JStr <$> token_type)).

Definition unverified : jwt.options :=
  {| jwt.verify_signature := false; jwt.verify_exp := false |}.

(** Lines 139-159: the unverified look at the token type. *)
Definition type_precheck (now : datetime) (token : jwt.token) (key : string)
    (token_type : option string) : result unit :=
  try_except
    (unverified_payload ← jwt.decode hmac now token key [ALGORITHM cfg] unverified;
     if type_mismatch token_type unverified_payload
     then Raise (invalid_token_type (default "" token_type))
     else Return tt)
    (fun e => if is_JWTError e || is_JWSError e then Return tt else Raise e).

(** [now] is the clock at the time of the call. *)
Definition decode_token (now : datetime) (token : jwt.token)
    (token_type : option string) : result (gmap string json) :=
  if negb (truthy_str (SECRET_KEY cfg)) then
    Raise (HTTPException 500 "Authentication system configuration error")
  else
    let key := default "" (SECRET_KEY cfg) in
    try_except
      (_ ← type_precheck now token key token_type;
       payload ← jwt.decode hmac now token key [ALGORITHM cfg] jwt.default_options;
       let payload := sub_as_str payload in
       if type_mismatch token_type payload
       then Raise (invalid_token_type (default "" token_type))
       else Return payload)
      (fun e =>
         match e with
         | ExpiredSignatureError _ => Raise (HTTPException 401 "Token has expired")
         | JWTClaimsError msg =>
             if contains "Subject" msg then
               if bool_decide (token_type = Some "access")
               then Raise (HTTPException 401 "User not found")
               else Raise (HTTPException 401 "Invalid token claims")
             else Raise (HTTPException 401 "Invalid token claims")
         | JWTError _ | JWSError _ =>
             Raise (HTTPException 401 "Could not validate credentials")
         | _ => Raise e
         end).

(** *** Identity resolver *)

Definition get_current_user (now : datetime) (db : session)
    (token : jwt.token) : result User :=
  uid ← try_except
    (payload ← try_except (decode_token now token (Some "access"))
                 (fun e => Raise e);
     match payload !! "sub" with
     | None | Some JNull =>
         Raise (HTTPException 401 "Invalid token content: missing user identifier")
     | Some v =>
         try_except (py_int v) (fun e =>
           match e with
           | ValueError _ | TypeError _ =>
               Raise (HTTPException 401 "Invalid user identifier format")
           | _ => Raise e
           end)
     end)
    (fun e =>
       if is_HTTPException e then Raise e
       else Raise (HTTPException 401 "Authentication error"));
  user ← try_except
    (found ← db uid;
     match found with
     | None => Raise (HTTPException 401 "User not found")
     | Some u => Return u
     end)
    (fun _ => Raise (HTTPException 500 "Database error"));
  if negb (truthy_bool (is_active user))
  then Raise (HTTPException 401 "Inactive user")
  else Return user.

Definition get_current_active_user (current_user : User) : result User :=
  if negb (truthy_bool (is_active current_user))
  then Raise (HTTPException 400 "Inactive user")
  else Return current_user.

End Auth.

(** ** Concrete stand-ins for the examples *)

(** A keyed checksum over the claims, in place of HMAC. *)
Definition demo_hmac (alg key : string) (input : jwt.signing_input) : string :=
  alg +:+ ":" +:+ key +:+ ":" +:+
  map_fold (fun k v acc => k +:+ "=" +:+ py_str v +:+ ";" +:+ acc) "" (snd input).

(** An injective digest, in place of the bcrypt digest. *)
Definition demo_digest (salt key : string) : string := salt +:+ "|" +:+ key.

Definition demo_settings : settings :=
  {| SECRET_KEY := Some "s3cret";
     ALGORITHM := "HS256";
     ACCESS_TOKEN_EXPIRE_MINUTES := 30;
     REFRESH_TOKEN_EXPIRE_DAYS := 7 |}.

(** A release that cuts long passwords and one that refuses them. *)
Definition truncating : bcrypt.release :=
  {| bcrypt.rejects_long := false; bcrypt.rejects_nul := false |}.

Definition strict : bcrypt.release :=
  {| bcrypt.rejects_long := true; bcrypt.rejects_nul := false |}.

(** Sign [claims] under [key], as a client holding [key] would. *)
Definition signed (hmac : string -> string -> jwt.signing_input -> string)
    (alg key : string) (claims : gmap string json) : jwt.token :=
  jwt.Jws alg claims (hmac alg key (alg, claims)).

Definition alice : User :=
  {| user_id := 1; username := "alice"; email := "alice@example.com";
     is_active := Some true |}.

Definition bob_inactive : User :=
  {| user_id := 2; username := "bob"; email := "bob@example.com";
     is_active := Some false |}.

Definition demo_db : session := fun n =>
  if n =? 1 then Return (Some alice)
  else if n =? 2 then Return (Some bob_inactive)
  else Return None.

(** The payload an issued token carries. *)
Definition issued_claims (type : string) (data : gmap string json)
    (current_time expire : datetime) : gmap string json :=
  <["iat" := JInt (jwt.timegm current_time)]>
    (<["type" := JStr type]>
      (<["exp" := JInt (jwt.timegm expire)]> (sub_as_str data))).

(** Seventy-two bytes shared by two long passwords. *)
Definition padding : string := string_of_list_ascii (repeat "a"%char 72).

Definition demo_salt : string := "$2b$12$abcdefghijklmnopqrstuv".

(** The exceptions the library lets out of [jwt.decode]. *)
Definition jose_or_type_error (e : exn) : Prop :=
  is_JWTError e = true ∨ ∃ m, e = TypeError m.

(** ** The authentication router, [app/routers/auth.py] *)

(** A row of the [users] table as the login route reads it: the columns
    of [User] and the stored password hash. *)
Record Account := {
  account : User;
  hashed_password : bcrypt.hash_string
}.

Module schemas.

(** [app.schemas.auth.Token] *)
Record Token := {
  access_token : jwt.token;
  refresh_token : jwt.token;
  token_type : string
}.

End schemas.

(** [str(e)] for the exceptions that carry a message. *)
Definition message (e : exn) : string :=
  match e with
  | ExpiredSignatureError m | JWTClaimsError m | JWTError m | JWSError m
  | ValueError m | TypeError m | SQLAlchemyError m => m
  | HTTPException _ detail => detail
  end.

Module routers_auth.

Section Routes.

Variable hmac : string -> string -> jwt.signing_input -> string.
Variable lib : bcrypt.release.
Variable digest : string -> string -> string.
Variable cfg : settings.

(** [login]: [db] is
    [db.query(User).filter(User.username == username).first()]; the two
    tokens read the clock and draw their jitter one after the other. *)
Definition login (db : string -> result (option Account))
    (username password : string)
    (access_time : datetime) (access_random : Z)
    (refresh_time : datetime) (refresh_random : Z) : result schemas.Token :=
  try_except
    (user ← db username;
     match user with
     | None => Raise (HTTPException 401 "Incorrect username or password")
     | Some user =>
         verified ← verify_password lib digest password (hashed_password user);
         if negb verified then
           Raise (HTTPException 401 "Incorrect username or password")
         else if negb (truthy_bool (is_active (account user))) then
           Raise (HTTPException 401 "Account is inactive")
         else
           let token_data : gmap string json :=
             {["sub" := JInt (user_id (account user))]} in
           let access_token_expires :=
             timedelta_of 0 (ACCESS_TOKEN_EXPIRE_MINUTES cfg) 0 in
           try_except
             (access_token ← create_access_token hmac cfg token_data
                                (Some access_token_expires) access_time access_random;
              refresh_token ← create_refresh_token hmac cfg token_data
                                 refresh_time refresh_random;
              Return {| schemas.access_token := access_token;
                        schemas.refresh_token := refresh_token;
                        schemas.token_type := "bearer" |})
             (fun _ => Raise (HTTPException 500 "Authentication service error"))
     end)
    (fun e =>
       if is_HTTPException e then Raise e
       else Raise (HTTPException 500 "An unexpected error occurred")).

(** [refresh_token]: [db] is
    [db.query(User).filter(User.id == user_id).first()] for the subject as
    the payload has it; [now] is the clock at the decode, [nonce] the
    value of [f"{time.time()}-{random.randint(1000, 9999)}"] and
    [random_offset] the duration of [random.uniform(0.1, 0.9)] minutes. *)
Definition refresh_token (db : json -> result (option User))
    (token : jwt.token) (now : datetime)
    (nonce : string) (random_offset : timedelta)
    (access_time : datetime) (access_random : Z)
    (refresh_time : datetime) (refresh_random : Z) : result schemas.Token :=
  try_except
    (if bool_decide (token = jwt.Garbage "") then
       Raise (HTTPException 400 "Token is required")
     else
       payload ← try_except (decode_token hmac cfg now token (Some "refresh"))
                   (fun e =>
                      if is_HTTPException e then Raise e
                      else Raise (HTTPException 401 "Could not validate credentials"));
       match payload !! "sub" with
       | None | Some JNull => Raise (HTTPException 401 "Invalid token")
       | Some sub =>
           user ← db sub;
           match user with
           | None => Raise (HTTPException 401 "User not found")
           | Some user =>
               if negb (truthy_bool (is_active user)) then
                 Raise (HTTPException 401 "User not found or inactive")
               else
                 let token_data : gmap string json :=
                   <["nonce" := JStr nonce]> {["sub" := JInt (user_id user)]} in
                 let access_token_expires :=
                   timedelta_of 0 (ACCESS_TOKEN_EXPIRE_MINUTES cfg) 0 + random_offset in
                 access_token ← create_access_token hmac cfg token_data
                                   (Some access_token_expires) access_time access_random;
                 refresh_token ← create_refresh_token hmac cfg token_data
                                    refresh_time refresh_random;
                 Return {| schemas.access_token := access_token;
                           schemas.refresh_token := refresh_token;
                           schemas.token_type := "bearer" |}
           end
       end)
    (fun e =>
       if is_HTTPException e then Raise e
       else Raise (HTTPException 401 ("Invalid token: " +:+ message e))).


End Routes.

End routers_auth.

(** Stand-ins for the two other queries of the router. *)
Definition demo_accounts : string -> result (option Account) := fun name =>
  if String.eqb name "alice" then
    Return (Some {| account := alice;
                    hashed_password :=
                      bcrypt.Salted demo_salt (demo_digest demo_salt "S3cret123") |})
  else if String.eqb name "bob" then
    Return (Some {| account := bob_inactive;
                    hashed_password :=
                      bcrypt.Salted demo_salt (demo_digest demo_salt "hunter2222") |})
  else Return None.

Definition demo_db_by_subject : json -> result (option User) := fun sub =>
  match sub with
  | JStr s => match py_int_str s with
              | Some n => demo_db n
              | None => Return None
              end
  | _ => Return None
  end.

(** The claims a token string carries, and its lifetime in seconds. *)
Definition claims_of (token : jwt.token) : gmap string json :=
  match token with
  | jwt.Jws _ claims _ => claims
  | jwt.Garbage _ => ∅
  end.

Definition lifetime (token : jwt.token) : option Z :=
  match claims_of token !! "exp", claims_of token !! "iat" with
  | Some (JInt exp), Some (JInt iat) => Some (exp - iat)
  | _, _ => None
  end.

(** ** The collaboration router, [app/routers/collaborations.py] *)

(** [app.models.collaboration.RequestStatus] *)
Inductive RequestStatus := PENDING | ACCEPTED | REJECTED.

#[global] Instance RequestStatus_eq_dec : EqDecision RequestStatus.
Proof. solve_decision. Defined.

Module project.

(** The columns of [app.models.project.Project] the router reads, and
    the ids of the users related through [project_collaborators]. *)
Record Project := {
  id : Z;
  creator_id : Z;
  is_active : option bool;
  is_completed : option bool;
  collaborators : list Z
}.

End project.

Module collaboration.

(** [app.models.collaboration.CollaborationRequest] *)
Record CollaborationRequest := {
  id : Z;
  user_id : Z;
  project_id : Z;
  message : option string;
  role : option string;
  status : RequestStatus;
  responded_at : option datetime
}.

End collaboration.

(** The tables behind the session, each keyed by its primary key. *)
Record tables := {
  users : gmap Z User;
  projects : gmap Z project.Project;
  requests : gmap Z collaboration.CollaborationRequest
}.

(** A pending request of [user] for [project]. *)
Definition pending_for (user project : Z)
    (r : collaboration.CollaborationRequest) : Prop :=
  collaboration.project_id r = project ∧
  collaboration.user_id r = user ∧
  collaboration.status r = PENDING.

#[global] Instance pending_for_dec user project r : Decision (pending_for user project r).
Proof. unfold pending_for. apply _. Defined.

Module routers_collaborations.

Section Routes.

(** [f"{status}"], which depends on the Python release. *)
Variable format_status : RequestStatus -> string.

(** [create_collaboration_request]: [new_id] is the primary key the
    database gives the new row. *)
Definition create_collaboration_request (db : tables)
    (project_id : Z) (message role : option string)
    (current_user : User) (new_id : Z)
    : result (collaboration.CollaborationRequest * tables) :=
  match projects db !! project_id with
  | None => Raise (HTTPException 404 "Project not found")
  | Some project =>
      if negb (truthy_bool (project.is_active project)) then
        Raise (HTTPException 400 "Project is not active")
      else if truthy_bool (project.is_completed project) then
        Raise (HTTPException 400 "Project is already completed")
      else if bool_decide (user_id current_user ∈ project.collaborators project) then
        Raise (HTTPException 400 "You are already a collaborator on this project")
      else if project.creator_id project =? user_id current_user then
        Raise (HTTPException 400 "You cannot request to collaborate on your own project")
      else if bool_decide
                (map_Exists (fun _ r => pending_for (user_id current_user) project_id r)
                   (requests db)) then
        Raise (HTTPException 400 "You already have a pending request for this project")
      else
        let db_request :=
          {| collaboration.id := new_id;
             collaboration.user_id := user_id current_user;
             collaboration.project_id := project_id;
             collaboration.message := message;
             collaboration.role := role;
             collaboration.status := PENDING;
             collaboration.responded_at := None |} in
        Return (db_request,
                {| users := users db;
                   projects := projects db;
                   requests := <[new_id := db_request]> (requests db) |})
  end.

(** [update_collaboration_request]: [new_status] is
    [request_update.status], [now] the clock. *)
Definition update_collaboration_request (db : tables) (request_id : Z)
    (new_status : RequestStatus) (current_user : User) (now : datetime)
    : result (collaboration.CollaborationRequest * tables) :=
  match requests db !! request_id with
  | None => Raise (HTTPException 404 "Collaboration request not found")
  | Some collab_request =>
      match projects db !! collaboration.project_id collab_request with
      | None => Raise (HTTPException 404 "Project not found")
      | Some project =>
          if negb (project.creator_id project =? user_id current_user) then
            Raise (HTTPException 403
                     "Only the project creator can accept or reject collaboration requests")
          else if negb (bool_decide (collaboration.status collab_request = PENDING)) then
            Raise (HTTPException 400
                     ("Request is already "
                      +:+ format_status (collaboration.status collab_request)))
          else
            let updated :=
              {| collaboration.id := collaboration.id collab_request;
                 collaboration.user_id := collaboration.user_id collab_request;
                 collaboration.project_id := collaboration.project_id collab_request;
                 collaboration.message := collaboration.message collab_request;
                 collaboration.role := collaboration.role collab_request;
                 collaboration.status := new_status;
                 collaboration.responded_at := Some now |} in
            let members := project.collaborators project in
            let members :=
              if bool_decide (new_status = ACCEPTED) then
                match users db !! collaboration.user_id collab_request with
                | Some _ =>
                    if bool_decide (collaboration.user_id collab_request ∈ members)
                    then members
                    else (members ++ [collaboration.user_id collab_request])%list
                | None => members
                end
              else members in
            let project :=
              {| project.id := project.id project;
                 project.creator_id := project.creator_id project;
                 project.is_active := project.is_active project;
                 project.is_completed := project.is_completed project;
                 project.collaborators := members |} in
            Return (updated,
                    {| users := users db;
                       projects :=
                         <[collaboration.project_id collab_request := project]>
                           (projects db);
                       requests := <[request_id := updated]> (requests db) |})
      end
  end.

(** [delete_collaboration_request] *)
Definition delete_collaboration_request (db : tables) (request_id : Z)
    (current_user : User) : result tables :=
  match requests db !! request_id with
  | None => Raise (HTTPException 404 "Collaboration request not found")
  | Some collab_request =>
      if negb (collaboration.user_id collab_request =? user_id current_user) then
        Raise (HTTPException 403 "You don't have permission to withdraw this request")
      else if negb (bool_decide (collaboration.status collab_request = PENDING)) then
        Raise (HTTPException 400
                 ("Request is already "
                  +:+ format_status (collaboration.status collab_request)
                  +:+ " and cannot be withdrawn"))
      else
        Return {| users := users db;
                  projects := projects db;
                  requests := delete request_id (requests db) |}
  end.

End Routes.

End routers_collaborations.

(** No user has two pending requests for one project. *)
Definition unique_pending (db : tables) : Prop :=
  ∀ i j r s user project,
    requests db !! i = Some r → requests db !! j = Some s →
    pending_for user project r → pending_for user project s → i = j.

(** One successful call of a route that writes to the request table. *)
Inductive step (format_status : RequestStatus -> string) : tables -> tables -> Prop :=
  | step_create db project_id message role current_user new_id r db' :
      requests db !! new_id = None →
      routers_collaborations.create_collaboration_request db project_id message
        role current_user new_id = Return (r, db') →
      step format_status db db'
  | step_update db request_id new_status current_user now r db' :
      routers_collaborations.update_collaboration_request format_status db
        request_id new_status current_user now = Return (r, db') →
      step format_status db db'
  | step_delete db request_id current_user db' :
      routers_collaborations.delete_collaboration_request format_status db
        request_id current_user = Return db' →
      step format_status db db'.

(** Stand-ins: a project of alice with one pending request of carol. *)
Definition carol : User :=
  {| user_id := 3; username := "carol"; email := "carol@example.com";
     is_active := Some true |}.

Definition demo_format_status (s : RequestStatus) : string :=
  match s with
  | PENDING => "pending"
  | ACCEPTED => "accepted"
  | REJECTED => "rejected"
  end.

Definition demo_request : collaboration.CollaborationRequest :=
  {| collaboration.id := 10;
     collaboration.user_id := 3;
     collaboration.project_id := 100;
     collaboration.message := Some "count me in";
     collaboration.role := None;
     collaboration.status := PENDING;
     collaboration.responded_at := None |}.

Definition demo_tables : tables :=
  {| users := {[1 := alice; 3 := carol]};
     projects :=
       {[100 := {| project.id := 100; project.creator_id := 1;
                   project.is_active := Some true;
                   project.is_completed := Some false;
                   project.collaborators := [] |}]};
     requests := {[10 := demo_request]} |}.

(** The same tables once alice has accepted the request. *)
Definition demo_accepted : collaboration.CollaborationRequest :=
  {| collaboration.id := 10;
     collaboration.user_id := 3;
     collaboration.project_id := 100;
     collaboration.message := Some "count me in";
     collaboration.role := None;
     collaboration.status := ACCEPTED;
     collaboration.responded_at := Some 5 |}.

Definition demo_tables_answered : tables :=
  {| users := {[1 := alice; 3 := carol]};
     projects :=
       {[100 := {| project.id := 100; project.creator_id := 1;
                   project.is_active := Some true;
                   project.is_completed := Some false;
                   project.collaborators := [3] |}]};
     requests := {[10 := demo_accepted]} |}.

(** * Properties *)

(** ** The issuer's payload *)

Lemma intdate_insert_datetime (m : gmap string pyobj) k t :
  jwt.intdate (<[k := PDatetime t]> m) k = <[k := PJson (JInt (jwt.timegm t))]> m.
Proof. unfold jwt.intdate. by rewrite lookup_insert_eq, insert_insert_eq. Qed.

Lemma intdate_not_datetime (m : gmap string pyobj) k :
  (∀ t, m !! k ≠ Some (PDatetime t)) → jwt.intdate m k = m.
Proof.
  intros H. unfold jwt.intdate.
  destruct (m !! k) as [[v|t]|] eqn:E; try done. by destruct (H t).
Qed.

Lemma omap_as_json_fmap (d : gmap string json) : omap jwt.as_json (PJson <$> d) = d.
Proof.
  apply map_eq. intros k. rewrite lookup_omap, lookup_fmap.
  by destruct (d !! k).
Qed.

(** What [jwt.encode] signs for the dictionary the issuer builds. *)
Lemma issuer_payload (type : string) (d : gmap string json) (now e : datetime) :
  let to_encode : gmap string pyobj :=
    <["iat" := PDatetime now]>
      (<["type" := PJson (JStr type)]> (<["exp" := PDatetime e]> (PJson <$> d))) in
  jwt.json_dumps (foldl jwt.intdate to_encode ["exp"; "iat"; "nbf"])
  = Return (<["iat" := JInt (jwt.timegm now)]>
             (<["type" := JStr type]> (<["exp" := JInt (jwt.timegm e)]> d))).
Proof.
  cbn [foldl].
  rewrite (insert_insert_ne _ "iat" "type") by done.
  rewrite (insert_insert_ne _ "iat" "exp") by done.
  rewrite (insert_insert_ne _ "type" "exp") by done.
  rewrite intdate_insert_datetime.
  rewrite (insert_insert_ne _ "exp" "type") by done.
  rewrite (insert_insert_ne _ "exp" "iat") by done.
  rewrite (insert_insert_ne _ "type" "iat") by done.
  rewrite intdate_insert_datetime.
  rewrite intdate_not_datetime.
  2: { intros t. rewrite !lookup_insert_ne by done. rewrite lookup_fmap.
       by destruct (d !! "nbf"). }
  unfold jwt.json_dumps. rewrite bool_decide_eq_true_2.
  - rewrite !(omap_insert_Some jwt.as_json _ _ (PJson _) _ eq_refl).
    by rewrite omap_as_json_fmap.
  - do 3 (apply map_Forall_insert_2; [by eexists|]).
    apply map_Forall_fmap. intros k v _. by eexists.
Qed.

Lemma create_access_token_unfold hmac cfg data expires_delta now r :
  create_access_token hmac cfg data expires_delta now r =
  if bool_decide (ALGORITHM cfg ∈ jwt.HMAC_ALGORITHMS) then
    match SECRET_KEY cfg with
    | None => Raise (JWSError "Expecting a string- or bytes-formatted key.")
    | Some k =>
        Return (signed hmac (ALGORITHM cfg) k
                  (issued_claims "access" data now
                     (access_expire cfg expires_delta now r)))
    end
  else Raise (JWSError "Algorithm not supported.").
Proof.
  unfold create_access_token, jwt.encode.
  case_bool_decide; [|done].
  by rewrite issuer_payload.
Qed.

Lemma create_refresh_token_unfold hmac cfg data now r :
  create_refresh_token hmac cfg data now r =
  if bool_decide (ALGORITHM cfg ∈ jwt.HMAC_ALGORITHMS) then
    match SECRET_KEY cfg with
    | None => Raise (JWSError "Expecting a string- or bytes-formatted key.")
    | Some k =>
        Return (signed hmac (ALGORITHM cfg) k
                  (issued_claims "refresh" data now
                     (now + timedelta_of (REFRESH_TOKEN_EXPIRE_DAYS cfg) 0 r)))
    end
  else Raise (JWSError "Algorithm not supported.").
Proof.
  unfold create_refresh_token, jwt.encode.
  case_bool_decide; [|done].
  by rewrite issuer_payload.
Qed.

(** ** Token uniqueness (C1) *)

(** The expiry claim of a token issued in the first millisecond of a
    second does not depend on the jitter drawn. *)
Lemma jitter_lost_in_seconds cfg now r :
  now `mod` 1000000 < 1000 → 1 ≤ r ≤ 999 →
  jwt.timegm (access_expire cfg None now r)
  = now `div` 1000000 + 60 * ACCESS_TOKEN_EXPIRE_MINUTES cfg.
Proof.
  intros Hnow Hr. unfold jwt.timegm, access_expire, timedelta_of.
  pose proof (Z.mod_pos_bound now 1000000 ltac:(lia)) as Hm.
  pose proof (Z.div_mod now 1000000 ltac:(lia)) as Hd.
  symmetry. apply Z.div_unique with (r := now `mod` 1000000 + r * 1000); lia.
Qed.

(** C1, on the code: two access tokens issued for the same data at the
    same clock reading, default lifetime, are the SAME token whenever the
    clock reading lies in the first millisecond of a second, whatever the
    two random jitters drawn by [random.randint(1, 999)] are.  The
    uniqueness the claim states does not hold. *)
Theorem create_access_token_same_tick_identical
    hmac cfg (data : gmap string json) (now : datetime) (r1 r2 : Z) :
  now `mod` 1000000 < 1000 →
  1 ≤ r1 ≤ 999 → 1 ≤ r2 ≤ 999 →
  create_access_token hmac cfg data None now r1
  = create_access_token hmac cfg data None now r2.
Proof.
  intros Hnow H1 H2. rewrite !create_access_token_unfold.
  unfold issued_claims. by rewrite !jitter_lost_in_seconds.
Qed.

Lemma create_access_token_same_tick_identical_witness :
  (0 `mod` 1000000 < 1000 ∧ 1 ≤ 1 ≤ 999 ∧ 1 ≤ 2 ≤ 999) ∧
  create_access_token demo_hmac demo_settings {["sub" := JInt 5]} None 0 1
  = create_access_token demo_hmac demo_settings {["sub" := JInt 5]} None 0 2.
Proof.
  split; [vm_compute; intuition discriminate|].
  apply create_access_token_same_tick_identical; vm_compute; intuition discriminate.
Defined.

(** ** What the library can raise *)

Lemma int_claim_cases what v :
  (∃ n, jwt.int_claim what v = Return n) ∨
  (∃ m, jwt.int_claim what v = Raise (JWTClaimsError m)) ∨
  (v = JNull ∧ ∃ m, jwt.int_claim what v = Raise (TypeError m)).
Proof.
  destruct v as [|b|n|s]; cbn.
  - right; right; eauto.
  - left; eauto.
  - left; eauto.
  - unfold jwt.int_claim; cbn. destruct (py_int_str s); cbn; eauto.
Qed.

Ltac jose_error := first [ by left | by right; eexists ].

Lemma _validate_iat_raises claims e :
  jwt._validate_iat claims = Raise e → jose_or_type_error e.
Proof.
  unfold jwt._validate_iat. destruct (claims !! "iat") as [v|]; [|done].
  destruct (int_claim_cases "Issued At claim (iat)" v)
    as [[n ->]|[[m ->]|[_ [m ->]]]]; cbn; intros [= <-]; jose_error.
Qed.

Lemma _validate_nbf_raises now claims e :
  jwt._validate_nbf now claims = Raise e → jose_or_type_error e.
Proof.
  unfold jwt._validate_nbf. destruct (claims !! "nbf") as [v|]; [|done].
  destruct (int_claim_cases "Not Before claim (nbf)" v)
    as [[n ->]|[[m ->]|[_ [m ->]]]]; cbn; [case_match|..]; intros [= <-];
    jose_error.
Qed.

Lemma _validate_exp_raises now claims e :
  jwt._validate_exp now claims = Raise e → jose_or_type_error e.
Proof.
  unfold jwt._validate_exp. destruct (claims !! "exp") as [v|]; [|done].
  destruct (int_claim_cases "Expiration Time claim (exp)" v)
    as [[n ->]|[[m ->]|[_ [m ->]]]]; cbn; [case_match|..]; intros [= <-];
    jose_error.
Qed.

(** The remaining validators raise [JWTClaimsError] only. *)
Lemma late_validators_raise claims e :
  (_ ← jwt._validate_aud claims;
   _ ← jwt._validate_sub claims;
   _ ← jwt._validate_jti claims;
   jwt._validate_at_hash claims) = Raise e →
  ∃ m, e = JWTClaimsError m.
Proof.
  unfold jwt._validate_aud, jwt._validate_sub, jwt._validate_jti,
    jwt._validate_at_hash.
  repeat (case_match; cbn; try done); intros [= <-]; eauto.
Qed.

Lemma _validate_claims_raises now claims opts e :
  jwt._validate_claims now claims opts = Raise e → jose_or_type_error e.
Proof.
  unfold jwt._validate_claims.
  destruct (jwt._validate_iat claims) as [[]|e1] eqn:Hiat; cbn;
    [|intros [= <-]; by eapply _validate_iat_raises].
  destruct (jwt._validate_nbf now claims) as [[]|e2] eqn:Hnbf; cbn;
    [|intros [= <-]; by eapply _validate_nbf_raises].
  destruct (if jwt.verify_exp opts then jwt._validate_exp now claims else Return tt)
    as [[]|e3] eqn:Hexp; cbn.
  - intros [m ->]%late_validators_raise. by left.
  - intros [= <-]. destruct (jwt.verify_exp opts); [|done].
    by eapply _validate_exp_raises.
Qed.

Lemma jws_verify_raises hmac tok key algorithms verify e :
  jwt.jws_verify hmac tok key algorithms verify = Raise e → ∃ m, e = JWSError m.
Proof.
  unfold jwt.jws_verify. repeat (case_match; try done); intros [= <-]; eauto.
Qed.

Lemma decode_raises hmac now tok key algorithms opts e :
  jwt.decode hmac now tok key algorithms opts = Raise e → jose_or_type_error e.
Proof.
  unfold jwt.decode.
  destruct (jwt.jws_verify hmac tok key algorithms (jwt.verify_signature opts))
    as [payload|e1] eqn:Hv; cbn.
  - destruct (jwt._validate_claims now payload opts) as [[]|e2] eqn:Hc; cbn;
      [done|]. intros [= <-]. by eapply _validate_claims_raises.
  - apply jws_verify_raises in Hv as [m ->]. intros [= <-]. by left.
Qed.



(** Without signature verification any parsed token reaches claim
    validation. *)
Lemma decode_unverified hmac cfg now alg claims signature key :
  jwt.decode hmac now (jwt.Jws alg claims signature) key [ALGORITHM cfg] unverified
  = (_ ← jwt._validate_claims now claims unverified; Return claims).
Proof. done. Qed.

(** ** The decoder's pre-check *)

Lemma truthy_secret cfg secret :
  SECRET_KEY cfg = Some secret → secret ≠ "" →
  truthy_str (SECRET_KEY cfg) = true ∧ default "" (SECRET_KEY cfg) = secret.
Proof.
  intros -> Hne. split; [|done]. cbn.
  destruct (String.eqb_spec secret ""); [done|done].
Qed.


(** The pre-check fails only with the token-type error or with an
    exception that is not a library error. *)
Lemma type_precheck_raises hmac cfg now token key token_type e :
  type_precheck hmac cfg now token key token_type = Raise e →
  e = invalid_token_type (default "" token_type) ∨ ∃ m, e = TypeError m.
Proof.
  unfold type_precheck.
  destruct (jwt.decode hmac now token key [ALGORITHM cfg] unverified)
    as [payload|e1] eqn:Hdec; cbn.
  - case_match; cbn; [|done]. intros [= <-]. by left.
  - apply decode_raises in Hdec as [Hj|[m ->]].
    + by rewrite Hj.
    + cbn. intros [= <-]. right; eauto.
Qed.



(** ** Tokens signed with another secret (C2) *)




(** ** Correctly signed tokens *)



Lemma _validate_sub_ok_as_str claims :
  jwt._validate_sub claims = Return tt → sub_as_str claims = claims.
Proof.
  unfold jwt._validate_sub, sub_as_str.
  destruct (claims !! "sub") as [v|]; [|done]. by destruct (isinstance_str v).
Qed.

(** What a successful validation says of its first steps. *)
Lemma _validate_claims_ok now claims opts :
  jwt._validate_claims now claims opts = Return tt →
  jwt._validate_iat claims = Return tt ∧
  jwt._validate_nbf now claims = Return tt ∧
  jwt._validate_sub claims = Return tt.
Proof.
  unfold jwt._validate_claims.
  destruct (jwt._validate_iat claims) as [[]|]; [|done].
  destruct (jwt._validate_nbf now claims) as [[]|]; [|done]. cbn.
  destruct (if jwt.verify_exp opts then _ else _) as [[]|]; [|done]. cbn.
  destruct (jwt._validate_aud claims) as [[]|]; [|done]. cbn.
  by destruct (jwt._validate_sub claims) as [[]|].
Qed.


(** A token of another type than the expected one is turned away by the
    pre-check, before its signature is looked at. *)
Lemma decode_token_rejects_type
    hmac cfg now alg (claims : gmap string json) signature secret token_type :
  SECRET_KEY cfg = Some secret → secret ≠ "" →
  jwt._validate_claims now claims unverified = Return tt →
  type_mismatch token_type claims = true →
  decode_token hmac cfg now (jwt.Jws alg claims signature) token_type
  = Raise (invalid_token_type (default "" token_type)).
Proof.
  intros Hkey Hne Hval Hty.
  destruct (truthy_secret _ _ Hkey Hne) as [Htruthy Hdef].
  unfold decode_token. rewrite Htruthy, Hdef. cbn [negb].
  unfold type_precheck. rewrite decode_unverified, Hval. cbn.
  by rewrite Hty.
Qed.

(** ** Expired tokens (C3) *)




(** ** Decoding without an expected type (C10) *)




(** ** Issue, then decode (C4) *)







(** ** The identity resolver (C5, C9) *)

Section Resolver.

Context (hmac : string -> string -> jwt.signing_input -> string)
        (cfg : settings) (now : datetime) (db : session) (token : jwt.token)
        (payload : gmap string json).

(** The access-token decode has succeeded. *)
Hypothesis decoded : decode_token hmac cfg now token (Some "access") = Return payload.

Lemma get_current_user_missing_subject :
  payload !! "sub" = None →
  get_current_user hmac cfg now db token
  = Raise (HTTPException 401 "Invalid token content: missing user identifier").
Proof. intros Hsub. unfold get_current_user. rewrite decoded. cbn. by rewrite Hsub. Qed.

Lemma get_current_user_subject_not_int s :
  payload !! "sub" = Some (JStr s) → py_int_str s = None →
  get_current_user hmac cfg now db token
  = Raise (HTTPException 401 "Invalid user identifier format").
Proof.
  intros Hsub Hint. unfold get_current_user. rewrite decoded. cbn.
  rewrite Hsub. cbn. by rewrite Hint.
Qed.

(** Up to the database lookup. *)
Lemma get_current_user_lookup s n :
  payload !! "sub" = Some (JStr s) → py_int_str s = Some n →
  get_current_user hmac cfg now db token
  = (user ← try_except
       (found ← db n;
        match found with
        | None => Raise (HTTPException 401 "User not found")
        | Some u => Return u
        end)
       (fun _ => Raise (HTTPException 500 "Database error"));
     if negb (truthy_bool (is_active user))
     then Raise (HTTPException 401 "Inactive user")
     else Return user).
Proof.
  intros Hsub Hint. unfold get_current_user. rewrite decoded. cbn.
  rewrite Hsub. cbn. by rewrite Hint.
Qed.

(** C5, on the code: when no user record matches the subject, the
    resolver does not fail as UserNotFound.  The "User not found"
    exception is raised inside the [try] block whose [except Exception]
    handler turns every exception into the HTTP 500 "Database error". *)
Theorem get_current_user_unknown_subject s n :
  payload !! "sub" = Some (JStr s) → py_int_str s = Some n →
  db n = Return None →
  get_current_user hmac cfg now db token
  = Raise (HTTPException 500 "Database error").
Proof.
  intros Hsub Hint Hdb. rewrite (get_current_user_lookup s n) by done.
  by rewrite Hdb.
Qed.

Lemma get_current_user_database_error s n e :
  payload !! "sub" = Some (JStr s) → py_int_str s = Some n →
  db n = Raise e →
  get_current_user hmac cfg now db token
  = Raise (HTTPException 500 "Database error").
Proof.
  intros Hsub Hint Hdb. rewrite (get_current_user_lookup s n) by done.
  by rewrite Hdb.
Qed.

Lemma get_current_user_inactive s n u :
  payload !! "sub" = Some (JStr s) → py_int_str s = Some n →
  db n = Return (Some u) → is_active u ≠ Some true →
  get_current_user hmac cfg now db token
  = Raise (HTTPException 401 "Inactive user").
Proof.
  intros Hsub Hint Hdb Hact. rewrite (get_current_user_lookup s n) by done.
  rewrite Hdb. cbn. by destruct (is_active u) as [[]|].
Qed.


End Resolver.


Lemma get_current_user_unknown_subject_witness :
  let claims : gmap string json :=
    {["sub" := JStr "999"; "type" := JStr "access"; "exp" := JInt 4102444800]} in
  let token := signed demo_hmac "HS256" "s3cret" claims in
  (decode_token demo_hmac demo_settings 0 token (Some "access") = Return claims ∧
   claims !! "sub" = Some (JStr "999") ∧ py_int_str "999" = Some 999 ∧
   demo_db 999 = Return None) ∧
  get_current_user demo_hmac demo_settings 0 demo_db token
  = Raise (HTTPException 500 "Database error").
Proof.
  intros claims token.
  split; [split; [|split; [|split]]; vm_compute; reflexivity|].
  assert (decode_token demo_hmac demo_settings 0 token (Some "access")
          = Return claims) as Hdecoded by (vm_compute; reflexivity).
  apply (get_current_user_unknown_subject demo_hmac demo_settings 0 demo_db
           token claims Hdecoded "999" 999);
    vm_compute; reflexivity.
Defined.

(** C9: a user returned by [get_current_user] is active, so that
    [get_current_active_user] returns it unchanged: its own inactive-user
    branch is never taken on such a user. *)
Theorem get_current_user_returns_active hmac cfg now db token (u : User) :
  get_current_user hmac cfg now db token = Return u →
  is_active u = Some true ∧ get_current_active_user u = Return u.
Proof.
  unfold get_current_user, get_current_active_user.
  destruct (try_except (_ ← try_except _ _; _) _) as [uid|e]; cbn; [|done].
  destruct (try_except (_ ← db uid; _) _) as [user|e]; cbn; [|done].
  destruct (is_active user) as [[]|] eqn:Hact; cbn; try done.
  intros [= ->]. by rewrite Hact.
Qed.

Lemma get_current_user_returns_active_witness :
  let claims : gmap string json :=
    {["sub" := JStr "1"; "type" := JStr "access"; "exp" := JInt 4102444800]} in
  let token := signed demo_hmac "HS256" "s3cret" claims in
  get_current_user demo_hmac demo_settings 0 demo_db token = Return alice ∧
  is_active alice = Some true ∧ get_current_active_user alice = Return alice.
Proof.
  intros claims token.
  split; [vm_compute; reflexivity|].
  apply (get_current_user_returns_active demo_hmac demo_settings 0 demo_db token).
  vm_compute; reflexivity.
Defined.

(** ** A missing signing secret (C6) *)

(** C6, refuted as stated: with no [JWT_SECRET] in the environment the
    module still imports; nothing fails at start. *)
Lemma startup_without_secret_succeeds :
  load_settings ∅ = Return {| SECRET_KEY := None;
                              ALGORITHM := "HS256";
                              ACCESS_TOKEN_EXPIRE_MINUTES := 30;
                              REFRESH_TOKEN_EXPIRE_DAYS := 7 |}.
Proof. reflexivity. Qed.

Lemma decode_token_without_secret hmac cfg now token token_type :
  SECRET_KEY cfg = None →
  decode_token hmac cfg now token token_type
  = Raise (HTTPException 500 "Authentication system configuration error").
Proof. intros H. unfold decode_token. by rewrite H. Qed.

(** C6, as the code has it: when the secret is absent (and the two
    lifetimes are absent or readable), the import succeeds with
    [SECRET_KEY = None]; the absence shows at run time, where every decode
    fails with the HTTP 500 configuration error and every issue raises the
    library's key error. *)
Theorem missing_secret_fails_at_run_time
    (env : gmap string string) (minutes days : Z) :
  env !! "JWT_SECRET" = None →
  getenv_int env "JWT_ACCESS_TOKEN_EXPIRE_MINUTES" 30 = Return minutes →
  getenv_int env "JWT_REFRESH_TOKEN_EXPIRE_DAYS" 7 = Return days →
  ∃ cfg,
    load_settings env = Return cfg ∧
    SECRET_KEY cfg = None ∧
    (∀ hmac now token token_type,
       decode_token hmac cfg now token token_type
       = Raise (HTTPException 500 "Authentication system configuration error")) ∧
    (∀ hmac data expires_delta now r,
       ∃ msg, create_access_token hmac cfg data expires_delta now r
              = Raise (JWSError msg)) ∧
    (∀ hmac data now r,
       ∃ msg, create_refresh_token hmac cfg data now r = Raise (JWSError msg)).
Proof.
  intros Hsecret Hmin Hdays. unfold load_settings.
  rewrite Hsecret, Hmin, Hdays. cbn.
  eexists; split; [done|]. split; [done|]. split; [|split].
  - intros. by apply decode_token_without_secret.
  - intros. rewrite create_access_token_unfold. cbn.
    case_bool_decide; by eexists.
  - intros. rewrite create_refresh_token_unfold. cbn.
    case_bool_decide; by eexists.
Qed.

Lemma missing_secret_fails_at_run_time_witness :
  ∃ cfg,
    load_settings ∅ = Return cfg ∧
    SECRET_KEY cfg = None ∧
    (∀ hmac now token token_type,
       decode_token hmac cfg now token token_type
       = Raise (HTTPException 500 "Authentication system configuration error")) ∧
    (∀ hmac data expires_delta now r,
       ∃ msg, create_access_token hmac cfg data expires_delta now r
              = Raise (JWSError msg)) ∧
    (∀ hmac data now r,
       ∃ msg, create_refresh_token hmac cfg data now r = Raise (JWSError msg)).
Proof.
  apply (missing_secret_fails_at_run_time ∅ 30 7); reflexivity.
Defined.

(** ** The credential hasher (C7, C8) *)


Lemma key_material_short lib (p : string) :
  (String.length p ≤ 72)%nat → bcrypt.has_nul p = false →
  bcrypt.key_material lib p = Return p.
Proof.
  intros Hlen Hnul. unfold bcrypt.key_material.
  rewrite Hnul, andb_false_r.
  by rewrite (proj2 (Nat.ltb_ge _ _) Hlen).
Qed.

(** A password of at most 72 bytes enters the digest whole, or is
    refused for a NUL byte. *)
Lemma key_material_short_cases lib (p : string) :
  (String.length p ≤ 72)%nat →
  bcrypt.key_material lib p = Return p ∨
  ∃ e, bcrypt.key_material lib p = Raise e.
Proof.
  intros Hlen. unfold bcrypt.key_material.
  destruct (bcrypt.rejects_nul lib && bcrypt.has_nul p); [right; eauto|].
  left. by rewrite (proj2 (Nat.ltb_ge _ _) Hlen).
Qed.

(** C7, refuted as stated: two distinct passwords that share their first
    72 bytes.  Under a release that cuts long passwords, each verifies
    against the hash of the other; under a release that refuses them,
    hashing raises, so that a password does not verify against its own
    hash either. *)
Lemma long_passwords_break_hash_verify :
  padding +:+ "1" ≠ padding +:+ "2" ∧
  (h ← get_password_hash truncating demo_digest (padding +:+ "2") demo_salt;
   verify_password truncating demo_digest (padding +:+ "1") h) = Return true ∧
  get_password_hash strict demo_digest (padding +:+ "1") demo_salt
  = Raise (HTTPException 500 "Password processing error").
Proof.
  split; [vm_compute; discriminate|].
  split; vm_compute; reflexivity.
Qed.

(** C7, as the code has it, for every release and every digest: a
    password of at most 72 bytes without NUL byte verifies against its own
    hash, and of two distinct passwords of at most 72 bytes, the first
    does not verify against the hash of the second unless their digests
    collide under the salt. *)
Theorem hash_then_verify lib digest (salt p p1 p2 : string) :
  (String.length p ≤ 72)%nat → bcrypt.has_nul p = false →
  (String.length p1 ≤ 72)%nat →
  (String.length p2 ≤ 72)%nat → bcrypt.has_nul p2 = false →
  p1 ≠ p2 →
  (digest salt p1 = digest salt p2 → p1 = p2) →
  (∃ h, get_password_hash lib digest p salt = Return h ∧
        verify_password lib digest p h = Return true) ∧
  (∃ h, get_password_hash lib digest p2 salt = Return h ∧
        verify_password lib digest p1 h = Return false).
Proof.
  intros Hlen Hnul Hlen1 Hlen2 Hnul2 Hne Hinj.
  unfold get_password_hash, verify_password, bcrypt.checkpw, bcrypt.hashpw,
    bcrypt.gensalt.
  rewrite !key_material_short by done. cbn. split.
  - eexists; split; [done|]. cbn. by rewrite bool_decide_eq_true_2.
  - eexists; split; [done|].
    destruct (key_material_short_cases lib p1 Hlen1) as [->|[e ->]]; cbn; [|done].
    rewrite bool_decide_eq_false_2; [done|]. intros [= Hd]. by apply Hne, Hinj.
Qed.

Lemma hash_then_verify_witness :
  (∃ h, get_password_hash truncating demo_digest "S3cret123" demo_salt = Return h ∧
        verify_password truncating demo_digest "S3cret123" h = Return true) ∧
  (∃ h, get_password_hash truncating demo_digest "test_password" demo_salt = Return h ∧
        verify_password truncating demo_digest "wrong_password" h = Return false).
Proof.
  apply (hash_then_verify truncating demo_digest demo_salt
           "S3cret123" "wrong_password" "test_password");
    try (vm_compute; reflexivity); try (vm_compute; lia).
  - discriminate.
  - vm_compute. intros [=].
Defined.

Lemma verify_password_wrong_digest lib digest (p salt rest : string) :
  verify_password lib digest p (bcrypt.Salted salt rest) = Return true →
  ∃ k, bcrypt.key_material lib p = Return k ∧ rest = digest salt k.
Proof.
  unfold verify_password, bcrypt.checkpw, bcrypt.hashpw.
  destruct (bcrypt.key_material lib p) as [k|e]; cbn; [|done].
  case_bool_decide as Heq; [|done]. intros _. exists k. split; [done|].
  by injection Heq.
Qed.

(** C8: for every password and every stored hash string, [verify_password]
    returns a boolean, no exception leaves it; on a hash string that
    bcrypt cannot parse it returns [False]. *)
Theorem verify_password_never_raises
    lib digest (plain_password : string) (hashed_password : bcrypt.hash_string)
    (raw : string) :
  (∃ b, verify_password lib digest plain_password hashed_password = Return b) ∧
  verify_password lib digest plain_password (bcrypt.Unparsable raw) = Return false.
Proof.
  split; [|done]. unfold verify_password.
  destruct (bcrypt.checkpw lib digest plain_password hashed_password); cbn; eauto.
Qed.

(** ** The cases of [tests/test_auth.py], on the model *)

(** [test_get_me_with_invalid_token] *)
Example invalid_token_is_credential_error :
  get_current_user demo_hmac demo_settings 0 demo_db (jwt.Garbage "invalid_token")
  = Raise (HTTPException 401 "Could not validate credentials").
Proof. vm_compute. reflexivity. Qed.

(** [test_get_me_with_refresh_token] *)
Example refresh_token_is_not_an_access_token :
  (token ← create_refresh_token demo_hmac demo_settings {["sub" := JInt 1]} 0 500;
   get_current_user demo_hmac demo_settings 0 demo_db token)
  = Raise (HTTPException 401 "Invalid token type. Expected access token.").
Proof. vm_compute. reflexivity. Qed.

(** [test_refresh_with_expired_token]: the subject is a number, the expiry
    one day back; expiry is reported before the subject is looked at. *)
Example expired_refresh_token :
  decode_token demo_hmac demo_settings 86400000000
    (signed demo_hmac "HS256" "s3cret"
       {["sub" := JInt 1; "type" := JStr "refresh"; "exp" := JInt 0]})
    (Some "refresh")
  = Raise (HTTPException 401 "Token has expired").
Proof. vm_compute. reflexivity. Qed.

(** [test_nonexistent_user_in_token]: the "User not found" the test sees
    comes from [decode_token], for the numeric subject of its token. *)
Example numeric_subject_is_user_not_found :
  get_current_user demo_hmac demo_settings 0 demo_db
    (signed demo_hmac "HS256" "s3cret"
       {["sub" := JInt 1000; "type" := JStr "access"; "exp" := JInt 1800]})
  = Raise (HTTPException 401 "User not found").
Proof. vm_compute. reflexivity. Qed.

(** [test_get_me_endpoint], and the same call for a deactivated user. *)
Example issued_token_resolves_to_user :
  (token ← create_access_token demo_hmac demo_settings {["sub" := JInt 1]}
             (Some (timedelta_of 0 30 0)) 0 500;
   get_current_user demo_hmac demo_settings 60000000 demo_db token)
  = Return alice.
Proof. vm_compute. reflexivity. Qed.

Example issued_token_of_inactive_user :
  (token ← create_access_token demo_hmac demo_settings {["sub" := JInt 2]}
             (Some (timedelta_of 0 30 0)) 0 500;
   get_current_user demo_hmac demo_settings 60000000 demo_db token)
  = Raise (HTTPException 401 "Inactive user").
Proof. vm_compute. reflexivity. Qed.

(** The jitter tells two tokens apart only when it carries the expiry
    into the next second. *)
Example jitter_across_a_second :
  create_access_token demo_hmac demo_settings {["sub" := JInt 1]} None 500000 1
  ≠ create_access_token demo_hmac demo_settings {["sub" := JInt 1]} None 500000 999.
Proof.
  intros H.
  apply (f_equal (fun r => match r with
                           | Return (jwt.Jws _ claims _) => claims !! "exp"
                           | _ => None
                           end)) in H.
  vm_compute in H. discriminate H.
Qed.

(** * Further properties of the module *)

(** ** What a successful decode says of the token *)

Lemma truthy_str_Some (s : option string) :
  truthy_str s = true → ∃ k, s = Some k ∧ k ≠ "".
Proof.
  destruct s as [k|]; cbn; [|done].
  destruct (String.eqb_spec k ""); [done|]. eauto.
Qed.

Lemma jws_verify_returns hmac tok key algorithms claims :
  jwt.jws_verify hmac tok key algorithms true = Return claims →
  ∃ alg, tok = jwt.Jws alg claims (hmac alg key (alg, claims)) ∧
         alg ∈ algorithms ∧ alg ∈ jwt.HMAC_ALGORITHMS.
Proof.
  unfold jwt.jws_verify. destruct tok as [raw|alg payload signature]; [done|].
  repeat case_bool_decide; try done. intros [= ->]. subst signature. eauto.
Qed.

Lemma decode_returns hmac now tok key algorithms claims :
  jwt.decode hmac now tok key algorithms jwt.default_options = Return claims →
  (∃ alg, tok = jwt.Jws alg claims (hmac alg key (alg, claims)) ∧
          alg ∈ algorithms ∧ alg ∈ jwt.HMAC_ALGORITHMS) ∧
  jwt._validate_claims now claims jwt.default_options = Return tt.
Proof.
  unfold jwt.decode. cbn.
  destruct (jwt.jws_verify hmac tok key algorithms true) as [payload|e] eqn:Hv;
    cbn; [|by destruct e].
  destruct (jwt._validate_claims now payload jwt.default_options)
    as [[]|e] eqn:Hc; cbn; [|done].
  intros [= ->]. split; [|done]. by apply jws_verify_returns.
Qed.

(** The handlers of [decode_token] never turn a failure into a payload. *)
Lemma decode_token_returns hmac cfg now token token_type payload :
  decode_token hmac cfg now token token_type = Return payload →
  ∃ secret,
    SECRET_KEY cfg = Some secret ∧ secret ≠ "" ∧
    ALGORITHM cfg ∈ jwt.HMAC_ALGORITHMS ∧
    token = signed hmac (ALGORITHM cfg) secret payload ∧
    jwt._validate_claims now payload jwt.default_options = Return tt ∧
    type_mismatch token_type payload = false.
Proof.
  unfold decode_token.
  destruct (truthy_str (SECRET_KEY cfg)) eqn:Htruthy; cbn [negb]; [|done].
  apply truthy_str_Some in Htruthy as (secret & Hkey & Hne).
  rewrite (proj2 (truthy_secret _ _ Hkey Hne)).
  destruct (type_precheck hmac cfg now token secret token_type) as [[]|e];
    cbn; [|by repeat case_match].
  destruct (jwt.decode hmac now token secret [ALGORITHM cfg] jwt.default_options)
    as [claims|e] eqn:Hdec; cbn; [|by repeat case_match].
  apply decode_returns in Hdec as [(alg & -> & Halg & Hhmac) Hval].
  apply list_elem_of_singleton in Halg as ->.
  destruct (_validate_claims_ok _ _ _ Hval) as (_ & _ & Hsub).
  rewrite (_validate_sub_ok_as_str _ Hsub).
  destruct (type_mismatch token_type claims) eqn:Hty; cbn; [done|].
  intros [= ->]. by exists secret.
Qed.


Lemma decode_token_type_checked_aux
    hmac cfg now token (expected : string) (payload : gmap string json) :
  expected ≠ "" →
  decode_token hmac cfg now token (Some expected) = Return payload →
  payload !! "type" = Some (JStr expected).
Proof.
  intros Hne (secret & _ & _ & _ & _ & _ & Hty)%decode_token_returns.
  unfold type_mismatch in Hty. cbn in Hty.
  destruct (String.eqb_spec expected ""); [done|]. cbn in Hty.
  by apply negb_false_iff, bool_decide_eq_true in Hty.
Qed.

(** When a non-empty type is expected, the payload [decode_token] returns
    carries exactly that type: an access token is never accepted where a
    refresh token is expected, nor the reverse, nor a token without type. *)
Theorem decode_token_type_checked
    hmac cfg now token (expected : string) (payload : gmap string json) :
  expected ≠ "" →
  decode_token hmac cfg now token (Some expected) = Return payload →
  payload !! "type" = Some (JStr expected).
Proof.
  intros Hne (secret & _ & _ & _ & _ & _ & Hty)%decode_token_returns.
  unfold type_mismatch in Hty. cbn in Hty.
  destruct (String.eqb_spec expected ""); [done|]. cbn in Hty.
  by apply negb_false_iff, bool_decide_eq_true in Hty.
Qed.

Lemma decode_token_type_checked_witness :
  "refresh" ≠ "" ∧
  decode_token demo_hmac demo_settings 0
    (signed demo_hmac "HS256" "s3cret"
       {["sub" := JStr "1"; "type" := JStr "refresh"; "exp" := JInt 60]})
    (Some "refresh")
  = Return {["sub" := JStr "1"; "type" := JStr "refresh"; "exp" := JInt 60]} ∧
  ({["sub" := JStr "1"; "type" := JStr "refresh"; "exp" := JInt 60]}
     : gmap string json) !! "type" = Some (JStr "refresh").
Proof.
  assert (decode_token demo_hmac demo_settings 0
            (signed demo_hmac "HS256" "s3cret"
               {["sub" := JStr "1"; "type" := JStr "refresh"; "exp" := JInt 60]})
            (Some "refresh")
          = Return {["sub" := JStr "1"; "type" := JStr "refresh"; "exp" := JInt 60]})
    as Hdecoded by (vm_compute; reflexivity).
  split; [discriminate|]. split; [exact Hdecoded|].
  apply (decode_token_type_checked demo_hmac demo_settings 0 _ "refresh" _
           ltac:(discriminate) Hdecoded).
Defined.

Lemma _validate_claims_ok_exp now claims :
  jwt._validate_claims now claims jwt.default_options = Return tt →
  jwt._validate_exp now claims = Return tt ∧
  jwt._validate_aud claims = Return tt ∧
  jwt._validate_jti claims = Return tt ∧
  jwt._validate_at_hash claims = Return tt.
Proof.
  unfold jwt._validate_claims. cbn.
  destruct (jwt._validate_iat claims) as [[]|]; [|done].
  destruct (jwt._validate_nbf now claims) as [[]|]; [|done]. cbn.
  destruct (jwt._validate_exp now claims) as [[]|]; [|done]. cbn.
  destruct (jwt._validate_aud claims) as [[]|]; [|done]. cbn.
  destruct (jwt._validate_sub claims) as [[]|]; [|done]. cbn.
  by destruct (jwt._validate_jti claims) as [[]|].
Qed.

(** The payload [decode_token] returns has not expired at the time of
    the call, its subject (when there is one) is a string, and it carries
    neither an audience nor an access-token hash. *)
Theorem decode_token_payload_shape
    hmac cfg now token token_type (payload : gmap string json) :
  decode_token hmac cfg now token token_type = Return payload →
  (∀ v, payload !! "exp" = Some v →
        ∃ exp, py_int v = Return exp ∧ jwt.timegm now ≤ exp) ∧
  (∀ v, payload !! "sub" = Some v → ∃ s, v = JStr s) ∧
  payload !! "aud" = None ∧ payload !! "at_hash" = None.
Proof.
  intros (secret & _ & _ & _ & _ & Hval & _)%decode_token_returns.
  destruct (_validate_claims_ok _ _ _ Hval) as (_ & _ & Hsub).
  destruct (_validate_claims_ok_exp _ _ Hval) as (Hexp & Haud & _ & Hhash).
  repeat split.
  - intros v Hv. unfold jwt._validate_exp, jwt.int_claim in Hexp.
    rewrite Hv in Hexp. destruct (py_int v) as [exp|e]; cbn in Hexp.
    + exists exp. split; [done|]. destruct (Z.ltb_spec exp (jwt.timegm now)); [done|lia].
    + by destruct e.
  - intros v Hv. unfold jwt._validate_sub in Hsub. rewrite Hv in Hsub.
    destruct v; try done. eauto.
  - unfold jwt._validate_aud in Haud. by destruct (payload !! "aud") as [[]|].
  - unfold jwt._validate_at_hash in Hhash. by destruct (payload !! "at_hash").
Qed.

Lemma decode_token_payload_shape_witness :
  let payload : gmap string json :=
    {["sub" := JStr "1"; "type" := JStr "access"; "exp" := JInt 60]} in
  decode_token demo_hmac demo_settings 0
    (signed demo_hmac "HS256" "s3cret" payload) None = Return payload ∧
  (∀ v, payload !! "exp" = Some v →
        ∃ exp, py_int v = Return exp ∧ jwt.timegm 0 ≤ exp) ∧
  (∀ v, payload !! "sub" = Some v → ∃ s, v = JStr s) ∧
  payload !! "aud" = None ∧ payload !! "at_hash" = None.
Proof.
  intros payload.
  assert (decode_token demo_hmac demo_settings 0
            (signed demo_hmac "HS256" "s3cret" payload) None = Return payload)
    as Hdecoded by (vm_compute; reflexivity).
  split; [exact Hdecoded|].
  exact (decode_token_payload_shape demo_hmac demo_settings 0 _ None payload Hdecoded).
Defined.

(** ** What the decoder and the resolver let out *)

Lemma type_precheck_returns_or_raises hmac cfg now token key token_type e :
  type_precheck hmac cfg now token key token_type = Raise e →
  (∃ detail, e = HTTPException 401 detail) ∨ ∃ m, e = TypeError m.
Proof.
  intros [->|[m ->]]%type_precheck_raises; [left|right]; by eexists.
Qed.

Lemma decode_token_raises_cases hmac cfg now token token_type (e : exn) :
  decode_token hmac cfg now token token_type = Raise e →
  (∃ detail, e = HTTPException 401 detail) ∨
  e = HTTPException 500 "Authentication system configuration error" ∨
  (∃ m, e = TypeError m).
Proof.
  unfold decode_token.
  destruct (negb (truthy_str (SECRET_KEY cfg))); [intros [= <-]; auto|].
  destruct (type_precheck hmac cfg now token _ token_type) as [[]|e1] eqn:Hpre; cbn.
  - destruct (jwt.decode hmac now token _ [ALGORITHM cfg] jwt.default_options)
      as [claims|e2] eqn:Hdec; cbn.
    + case_match; cbn; [|done]. intros [= <-]. left. by eexists.
    + apply decode_raises in Hdec as [Hj|[m ->]].
      * destruct e2; try done; repeat case_match; intros [= <-]; left; by eexists.
      * intros [= <-]. right; right. by eexists.
  - apply type_precheck_returns_or_raises in Hpre as [[detail ->]|[m ->]];
      intros [= <-]; [left|right; right]; by eexists.
Qed.



(** Every failure of [get_current_user] is an HTTP error with status 401
    or 500, also when [decode_token] or the database raise something
    else. *)
Theorem get_current_user_raises
    hmac cfg now (db : session) token (e : exn) :
  get_current_user hmac cfg now db token = Raise e →
  ∃ detail, e = HTTPException 401 detail ∨ e = HTTPException 500 detail.
Proof.
  unfold get_current_user.
  destruct (decode_token hmac cfg now token (Some "access")) as [payload|e1] eqn:Hdec;
    cbn.
  - destruct (payload !! "sub") as [[|b|n|s]|]; cbn;
      try (intros [= <-]; eexists; by left).
    + destruct (db (if b then 1 else 0)) as [[u|]|e2]; cbn;
        try (intros [= <-]; eexists; by right).
      case_match; [|done]. intros [= <-]. eexists; by left.
    + destruct (db n) as [[u|]|e2]; cbn;
        try (intros [= <-]; eexists; by right).
      case_match; [|done]. intros [= <-]. eexists; by left.
    + destruct (py_int_str s) as [n|]; cbn;
        [|intros [= <-]; eexists; by left].
      destruct (db n) as [[u|]|e2]; cbn;
        try (intros [= <-]; eexists; by right).
      case_match; [|done]. intros [= <-]. eexists; by left.
  - apply decode_token_raises_cases in Hdec.
    destruct Hdec as [[detail ->]|[->|[m ->]]]; cbn; intros [= <-]; eexists;
      [by left|by right|by left].
Qed.

Lemma get_current_user_raises_witness :
  get_current_user demo_hmac demo_settings 0 demo_db
    (signed demo_hmac "HS256" "s3cret"
       {["iat" := JNull; "type" := JStr "access"]})
  = Raise (HTTPException 401 "Authentication error") ∧
  ∃ detail, HTTPException 401 "Authentication error" = HTTPException 401 detail ∨
            HTTPException 401 "Authentication error" = HTTPException 500 detail.
Proof.
  assert (get_current_user demo_hmac demo_settings 0 demo_db
            (signed demo_hmac "HS256" "s3cret"
               {["iat" := JNull; "type" := JStr "access"]})
          = Raise (HTTPException 401 "Authentication error"))
    as Hraised by (vm_compute; reflexivity).
  split; [exact Hraised|].
  exact (get_current_user_raises demo_hmac demo_settings 0 demo_db _ _ Hraised).
Defined.



(** ** Tokens whose subject is not a string *)



(** ** What the issuer puts into a token *)

Lemma sub_as_str_lookup_sub (d : gmap string json) :
  sub_as_str d !! "sub" = (fun v => JStr (py_str v)) <$> d !! "sub".
Proof.
  unfold sub_as_str. destruct (d !! "sub") as [v|] eqn:Hsub; cbn; [|done].
  destruct v; cbn; by rewrite ?lookup_insert_eq.
Qed.

Lemma sub_as_str_lookup_ne (d : gmap string json) k :
  k ≠ "sub" → sub_as_str d !! k = d !! k.
Proof.
  intros Hk. unfold sub_as_str. destruct (d !! "sub") as [v|]; [|done].
  destruct (isinstance_str v); [done|]. by rewrite lookup_insert_ne.
Qed.

Lemma issued_claims_fixed type (d : gmap string json) now e :
  issued_claims type d now e !! "iat" = Some (JInt (jwt.timegm now)) ∧
  issued_claims type d now e !! "type" = Some (JStr type) ∧
  issued_claims type d now e !! "exp" = Some (JInt (jwt.timegm e)).
Proof.
  unfold issued_claims. repeat split.
  - by rewrite lookup_insert_eq.
  - rewrite lookup_insert_ne by done. by rewrite lookup_insert_eq.
  - rewrite !lookup_insert_ne by done. by rewrite lookup_insert_eq.
Qed.

Lemma issued_claims_other type (d : gmap string json) now e k :
  k ≠ "iat" → k ≠ "type" → k ≠ "exp" →
  issued_claims type d now e !! k = sub_as_str d !! k.
Proof. intros. unfold issued_claims. by rewrite !lookup_insert_ne. Qed.

(** The claims of an access token: the type is "access" and the issue
    time is the clock's, whatever [data] holds under those keys; the
    subject of [data] is carried as a string; every other entry of [data]
    is carried unchanged. *)
Theorem create_access_token_claims
    hmac cfg (data : gmap string json) expires_delta now r token :
  create_access_token hmac cfg data expires_delta now r = Return token →
  claims_of token !! "type" = Some (JStr "access") ∧
  claims_of token !! "iat" = Some (JInt (jwt.timegm now)) ∧
  claims_of token !! "sub" = (fun v => JStr (py_str v)) <$> data !! "sub" ∧
  (∀ k, k ≠ "sub" → k ≠ "iat" → k ≠ "type" → k ≠ "exp" →
        claims_of token !! k = data !! k).
Proof.
  rewrite create_access_token_unfold. case_bool_decide; [|done].
  destruct (SECRET_KEY cfg) as [key|]; [|done]. intros [= <-]. cbn.
  destruct (issued_claims_fixed "access" data now
              (access_expire cfg expires_delta now r)) as (Hiat & Hty & _).
  repeat split; try done.
  - rewrite issued_claims_other by done. apply sub_as_str_lookup_sub.
  - intros k Hsub Hi Ht He. rewrite issued_claims_other by done.
    by apply sub_as_str_lookup_ne.
Qed.

Lemma create_access_token_claims_witness :
  ∃ token,
    create_access_token demo_hmac demo_settings
      {["sub" := JInt 7; "type" := JStr "refresh"; "nonce" := JStr "n"]}
      None 0 500 = Return token ∧
    claims_of token !! "type" = Some (JStr "access") ∧
    claims_of token !! "sub" = Some (JStr "7") ∧
    claims_of token !! "nonce" = Some (JStr "n").
Proof.
  destruct (create_access_token demo_hmac demo_settings
              {["sub" := JInt 7; "type" := JStr "refresh"; "nonce" := JStr "n"]}
              None 0 500) as [token|e] eqn:Hissued; [|by vm_compute in Hissued].
  exists token. split; [done|].
  destruct (create_access_token_claims _ _ _ _ _ _ _ Hissued)
    as (Hty & _ & Hsub & Hother).
  split; [exact Hty|]. split; [exact Hsub|]. by rewrite Hother.
Defined.


Lemma issued_claims_type_mismatch_any type (d : gmap string json) now e token_type :
  type_mismatch (Some token_type) (issued_claims type d now e)
  = negb (String.eqb token_type "") && negb (bool_decide (type = token_type)).
Proof.
  destruct (issued_claims_fixed type d now e) as (_ & Hty & _).
  unfold type_mismatch. rewrite Hty. cbn. f_equal. f_equal.
  apply bool_decide_ext. split; congruence.
Qed.



(** ** Lifetimes *)

Lemma jitter_within_a_second (now ttl r : Z) :
  1 ≤ r ≤ 999 →
  ttl ≤ (now + ttl * 1000000 + r * 1000) `div` 1000000 - now `div` 1000000 ≤ ttl + 1.
Proof.
  intros Hr.
  pose proof (Z.mod_pos_bound now 1000000 ltac:(lia)) as Hm.
  pose proof (Z.div_mod now 1000000 ltac:(lia)) as Hd.
  assert (now + ttl * 1000000 + r * 1000
          = (now `div` 1000000 + ttl) * 1000000 + (now `mod` 1000000 + r * 1000))
    as -> by lia.
  rewrite Z.div_add_l by lia.
  assert (0 ≤ (now `mod` 1000000 + r * 1000) `div` 1000000 ≤ 1); [|lia].
  split.
  - apply Z.div_pos; lia.
  - apply Z.lt_succ_r, Z.div_lt_upper_bound; lia.
Qed.

(** With the default lifetimes, the difference between the [exp] and the
    [iat] claim of an issued token is the configured lifetime in seconds,
    or one second more: 60 times the minutes for an access token, 86400
    times the days for a refresh token. *)
Theorem issued_token_lifetime
    hmac cfg (data : gmap string json) now r secret :
  SECRET_KEY cfg = Some secret →
  ALGORITHM cfg ∈ jwt.HMAC_ALGORITHMS →
  1 ≤ r ≤ 999 →
  ∃ access refresh (a b : Z),
    create_access_token hmac cfg data None now r = Return access ∧
    lifetime access = Some a ∧
    60 * ACCESS_TOKEN_EXPIRE_MINUTES cfg ≤ a ≤ 60 * ACCESS_TOKEN_EXPIRE_MINUTES cfg + 1 ∧
    create_refresh_token hmac cfg data now r = Return refresh ∧
    lifetime refresh = Some b ∧
    86400 * REFRESH_TOKEN_EXPIRE_DAYS cfg ≤ b
      ≤ 86400 * REFRESH_TOKEN_EXPIRE_DAYS cfg + 1.
Proof.
  intros Hkey Halg Hr.
  rewrite create_access_token_unfold, create_refresh_token_unfold.
  rewrite bool_decide_eq_true_2, Hkey by done.
  pose proof (issued_claims_fixed "access" data now (access_expire cfg None now r))
    as (Hiat & _ & Hexp).
  pose proof (issued_claims_fixed "refresh" data now
                (now + timedelta_of (REFRESH_TOKEN_EXPIRE_DAYS cfg) 0 r))
    as (Hiat' & _ & Hexp').
  do 4 eexists. split; [done|]. split.
  { unfold lifetime, signed, claims_of. by rewrite Hiat, Hexp. }
  split.
  { unfold jwt.timegm, access_expire, timedelta_of.
    pose proof (jitter_within_a_second now
                  (60 * ACCESS_TOKEN_EXPIRE_MINUTES cfg) r Hr) as H.
    replace (now + (0 * 86400000000 + ACCESS_TOKEN_EXPIRE_MINUTES cfg * 60000000
                    + r * 1000))
      with (now + 60 * ACCESS_TOKEN_EXPIRE_MINUTES cfg * 1000000 + r * 1000) by lia.
    exact H. }
  split; [done|]. split.
  { unfold lifetime, signed, claims_of. by rewrite Hiat', Hexp'. }
  unfold jwt.timegm, timedelta_of.
  pose proof (jitter_within_a_second now
                (86400 * REFRESH_TOKEN_EXPIRE_DAYS cfg) r Hr) as H.
  replace (now + (REFRESH_TOKEN_EXPIRE_DAYS cfg * 86400000000 + 0 * 60000000
                  + r * 1000))
    with (now + 86400 * REFRESH_TOKEN_EXPIRE_DAYS cfg * 1000000 + r * 1000) by lia.
  exact H.
Qed.

Lemma issued_token_lifetime_witness :
  ∃ access refresh (a b : Z),
    create_access_token demo_hmac demo_settings {["sub" := JInt 1]} None 500000 999
    = Return access ∧
    lifetime access = Some a ∧ 60 * 30 ≤ a ≤ 60 * 30 + 1 ∧
    create_refresh_token demo_hmac demo_settings {["sub" := JInt 1]} 500000 999
    = Return refresh ∧
    lifetime refresh = Some b ∧ 86400 * 7 ≤ b ≤ 86400 * 7 + 1.
Proof.
  apply (issued_token_lifetime demo_hmac demo_settings {["sub" := JInt 1]}
           500000 999 "s3cret").
  - reflexivity.
  - vm_compute. set_solver.
  - lia.
Defined.

(** ** An empty secret *)

(** When [JWT_SECRET] is set to the empty string, tokens are still
    issued, signed under the empty key, but no token is ever decoded:
    [decode_token] takes the empty secret for a missing one. *)
Theorem empty_secret_issues_but_never_decodes
    hmac cfg (data : gmap string json) expires_delta now r :
  SECRET_KEY cfg = Some "" →
  ALGORITHM cfg ∈ jwt.HMAC_ALGORITHMS →
  (∃ token,
     create_access_token hmac cfg data expires_delta now r = Return token ∧
     decode_token hmac cfg now token (Some "access")
     = Raise (HTTPException 500 "Authentication system configuration error")) ∧
  (∀ now' token token_type,
     decode_token hmac cfg now' token token_type
     = Raise (HTTPException 500 "Authentication system configuration error")).
Proof.
  intros Hkey Halg.
  assert (∀ now' token token_type,
            decode_token hmac cfg now' token token_type
            = Raise (HTTPException 500 "Authentication system configuration error"))
    as Hdecode.
  { intros. unfold decode_token. by rewrite Hkey. }
  split; [|done].
  rewrite create_access_token_unfold, bool_decide_eq_true_2, Hkey by done.
  eexists; split; [done|]. apply Hdecode.
Qed.

Lemma empty_secret_issues_but_never_decodes_witness :
  let cfg := {| SECRET_KEY := Some ""; ALGORITHM := "HS256";
                ACCESS_TOKEN_EXPIRE_MINUTES := 30;
                REFRESH_TOKEN_EXPIRE_DAYS := 7 |} in
  (∃ token,
     create_access_token demo_hmac cfg {["sub" := JInt 1]} None 0 500 = Return token ∧
     decode_token demo_hmac cfg 0 token (Some "access")
     = Raise (HTTPException 500 "Authentication system configuration error")) ∧
  (∀ now' token token_type,
     decode_token demo_hmac cfg now' token token_type
     = Raise (HTTPException 500 "Authentication system configuration error")).
Proof.
  intros cfg.
  apply (empty_secret_issues_but_never_decodes demo_hmac cfg).
  - reflexivity.
  - vm_compute. set_solver.
Defined.

(** ** Settings that do not read as integers *)



(** ** Passwords of more than 72 bytes *)

Lemma substring_0_short (n : nat) (p : string) :
  (String.length p ≤ n)%nat → substring 0 n p = p.
Proof.
  revert n. induction p as [|c p IH]; intros [|n] Hlen; cbn in *; try done.
  - lia.
  - f_equal. apply IH. lia.
Qed.

Lemma substring_0_length (n : nat) (p : string) :
  (String.length (substring 0 n p) ≤ n)%nat.
Proof.
  revert n. induction p as [|c p IH]; intros [|n]; cbn; try lia.
  specialize (IH n). lia.
Qed.

Lemma substring_0_has_nul (n : nat) (p : string) :
  bcrypt.has_nul p = false → bcrypt.has_nul (substring 0 n p) = false.
Proof.
  unfold bcrypt.has_nul.
  revert n. induction p as [|c p IH]; intros [|n]; cbn; try done.
  intros [Hc Hp]%orb_false_iff. rewrite Hc. cbn. by apply IH.
Qed.

Lemma key_material_first_72 lib (p : string) :
  bcrypt.rejects_long lib = false → bcrypt.has_nul p = false →
  bcrypt.key_material lib p = Return (substring 0 72 p).
Proof.
  intros Hlong Hnul. unfold bcrypt.key_material.
  rewrite Hnul, andb_false_r, Hlong.
  destruct (Nat.ltb_spec 72 (String.length p)); [done|].
  by rewrite substring_0_short.
Qed.

(** Under a release of bcrypt that cuts long passwords, only the first
    72 bytes of a password count: hashing and verifying a password
    (without NUL byte) give what its first 72 bytes give, for every salt
    and every stored hash. *)
Theorem password_counts_up_to_72_bytes
    lib digest (p salt : string) (h : bcrypt.hash_string) :
  bcrypt.rejects_long lib = false → bcrypt.has_nul p = false →
  get_password_hash lib digest p salt
  = get_password_hash lib digest (substring 0 72 p) salt ∧
  verify_password lib digest p h
  = verify_password lib digest (substring 0 72 p) h.
Proof.
  intros Hlong Hnul.
  assert (bcrypt.key_material lib p
          = bcrypt.key_material lib (substring 0 72 p)) as Hkey.
  { rewrite key_material_first_72 by done.
    rewrite key_material_short; [done|apply substring_0_length|].
    by apply substring_0_has_nul. }
  unfold get_password_hash, verify_password, bcrypt.checkpw, bcrypt.hashpw,
    bcrypt.gensalt.
  rewrite Hkey. split; [done|]. by destruct h.
Qed.

Lemma password_counts_up_to_72_bytes_witness :
  get_password_hash truncating demo_digest (padding +:+ "tail") demo_salt
  = get_password_hash truncating demo_digest
      (substring 0 72 (padding +:+ "tail")) demo_salt ∧
  verify_password truncating demo_digest (padding +:+ "tail")
    (bcrypt.Salted demo_salt (demo_digest demo_salt padding))
  = verify_password truncating demo_digest (substring 0 72 (padding +:+ "tail"))
      (bcrypt.Salted demo_salt (demo_digest demo_salt padding)).
Proof.
  apply (password_counts_up_to_72_bytes truncating demo_digest
           (padding +:+ "tail") demo_salt); vm_compute; reflexivity.
Defined.

(** Under a release of bcrypt that refuses long passwords, a password of
    more than 72 bytes cannot be hashed (the HTTP 500 of
    [get_password_hash]) and verifies against no stored hash. *)
Theorem long_password_refused
    lib digest (p salt : string) (h : bcrypt.hash_string) :
  bcrypt.rejects_long lib = true → (72 < String.length p)%nat →
  get_password_hash lib digest p salt
  = Raise (HTTPException 500 "Password processing error") ∧
  verify_password lib digest p h = Return false.
Proof.
  intros Hlong Hlen.
  assert (∃ e, bcrypt.key_material lib p = Raise e) as [e Hkey].
  { unfold bcrypt.key_material. rewrite Hlong.
    rewrite (proj2 (Nat.ltb_lt _ _) Hlen).
    destruct (bcrypt.rejects_nul lib && bcrypt.has_nul p); by eexists. }
  unfold get_password_hash, verify_password, bcrypt.checkpw, bcrypt.hashpw,
    bcrypt.gensalt.
  rewrite Hkey. split; [done|]. by destruct h.
Qed.

Lemma long_password_refused_witness :
  get_password_hash strict demo_digest (padding +:+ "tail") demo_salt
  = Raise (HTTPException 500 "Password processing error") ∧
  verify_password strict demo_digest (padding +:+ "tail")
    (bcrypt.Salted demo_salt (demo_digest demo_salt padding))
  = Return false.
Proof.
  apply (long_password_refused strict demo_digest (padding +:+ "tail") demo_salt).
  - reflexivity.
  - vm_compute. lia.
Defined.

(** ** The subject as a string, and back *)








(** ** Hash, then verify *)

Lemma get_password_hash_returns lib digest (p salt : string) h :
  get_password_hash lib digest p salt = Return h →
  ∃ k, bcrypt.key_material lib p = Return k ∧
       h = bcrypt.Salted salt (digest salt k).
Proof.
  unfold get_password_hash, bcrypt.hashpw, bcrypt.gensalt.
  destruct (bcrypt.key_material lib p) as [k|e]; cbn; [|done].
  intros [= <-]. eauto.
Qed.

Lemma verify_own_hash lib digest (p salt : string) h :
  get_password_hash lib digest p salt = Return h →
  verify_password lib digest p h = Return true.
Proof.
  intros (k & Hk & ->)%get_password_hash_returns.
  unfold verify_password, bcrypt.checkpw, bcrypt.hashpw. rewrite Hk. cbn.
  by rewrite bool_decide_eq_true_2.
Qed.

(** Whatever the password, the salt and the release of bcrypt: a hash
    that [get_password_hash] returns is accepted by [verify_password] for
    the password it was made from, and it records the salt drawn. *)
Theorem hashed_password_verifies lib digest (p salt : string) h :
  get_password_hash lib digest p salt = Return h →
  verify_password lib digest p h = Return true ∧
  ∃ rest, h = bcrypt.Salted salt rest.
Proof.
  intros Hhash. split; [by eapply verify_own_hash|].
  apply get_password_hash_returns in Hhash as (k & _ & ->). eauto.
Qed.

Lemma hashed_password_verifies_witness :
  get_password_hash strict demo_digest "testpassword123" demo_salt
  = Return (bcrypt.Salted demo_salt (demo_digest demo_salt "testpassword123")) ∧
  verify_password strict demo_digest "testpassword123"
    (bcrypt.Salted demo_salt (demo_digest demo_salt "testpassword123"))
  = Return true ∧
  ∃ rest, bcrypt.Salted demo_salt (demo_digest demo_salt "testpassword123")
          = bcrypt.Salted demo_salt rest.
Proof.
  assert (get_password_hash strict demo_digest "testpassword123" demo_salt
          = Return (bcrypt.Salted demo_salt
                      (demo_digest demo_salt "testpassword123")))
    as Hhash by (vm_compute; reflexivity).
  split; [exact Hhash|].
  exact (hashed_password_verifies strict demo_digest _ _ _ Hhash).
Defined.

(** ** The login route *)

Section Login.

Context (hmac : string -> string -> jwt.signing_input -> string)
        (lib : bcrypt.release) (digest : string -> string -> string)
        (cfg : settings) (db : string -> result (option Account))
        (username password : string)
        (access_time : datetime) (access_random : Z)
        (refresh_time : datetime) (refresh_random : Z).

Local Abbreviation login_call :=
  (routers_auth.login hmac lib digest cfg db username password
     access_time access_random refresh_time refresh_random).

Lemma login_unknown_user :
  db username = Return None →
  login_call = Raise (HTTPException 401 "Incorrect username or password").
Proof. intros Hdb. unfold routers_auth.login. by rewrite Hdb. Qed.

Lemma login_wrong_password user :
  db username = Return (Some user) →
  verify_password lib digest password (hashed_password user) = Return false →
  login_call = Raise (HTTPException 401 "Incorrect username or password").
Proof.
  intros Hdb Hpw. unfold routers_auth.login. rewrite Hdb. cbn. by rewrite Hpw.
Qed.

(** The login route answers an unknown user name and a wrong password
    alike, and a wrong password alike for an active and for a deactivated
    account: the account's existence and status show only to who knows
    the password. *)
Theorem login_does_not_reveal_accounts :
  db username = Return None ∨
  (∃ user, db username = Return (Some user) ∧
           verify_password lib digest password (hashed_password user)
           = Return false) →
  login_call = Raise (HTTPException 401 "Incorrect username or password").
Proof.
  intros [Hdb|(user & Hdb & Hpw)].
  - by apply login_unknown_user.
  - by eapply login_wrong_password.
Qed.

(** What the login route returns was issued for an account found under
    the user name, whose stored hash verifies the password and which is
    active: an access and a refresh token for the account's id. *)
Theorem login_returns (tokens : schemas.Token) :
  login_call = Return tokens →
  ∃ user,
    db username = Return (Some user) ∧
    verify_password lib digest password (hashed_password user) = Return true ∧
    is_active (account user) = Some true ∧
    create_access_token hmac cfg {["sub" := JInt (user_id (account user))]}
      (Some (timedelta_of 0 (ACCESS_TOKEN_EXPIRE_MINUTES cfg) 0))
      access_time access_random = Return (schemas.access_token tokens) ∧
    create_refresh_token hmac cfg {["sub" := JInt (user_id (account user))]}
      refresh_time refresh_random = Return (schemas.refresh_token tokens) ∧
    schemas.token_type tokens = "bearer".
Proof.
  unfold routers_auth.login.
  destruct (db username) as [[user|]|e] eqn:Hdb; cbn;
    [|done|by destruct (is_HTTPException e)].
  destruct (verify_password lib digest password (hashed_password user))
    as [[]|e] eqn:Hpw; cbn; [|done|by destruct (is_HTTPException e)].
  destruct (is_active (account user)) as [[]|] eqn:Hact; cbn; try done.
  destruct (create_access_token hmac cfg _ _ access_time access_random)
    as [access|e] eqn:Hacc; cbn; [|done].
  destruct (create_refresh_token hmac cfg _ refresh_time refresh_random)
    as [refresh|e] eqn:Href; cbn; [|done].
  intros [= <-]. by exists user.
Qed.

(** Every failure of the login route is an HTTP error with status 401
    or 500, the database raising what it may (short of an HTTP error of
    its own). *)
Theorem login_raises (e : exn) :
  (∀ e', db username = Raise e' → is_HTTPException e' = false) →
  login_call = Raise e →
  ∃ detail, e = HTTPException 401 detail ∨ e = HTTPException 500 detail.
Proof.
  intros Hdb. unfold routers_auth.login.
  destruct (db username) as [[user|]|e1]; cbn.
  - unfold verify_password.
    destruct (bcrypt.checkpw lib digest password (hashed_password user))
      as [[]|e2]; cbn.
    + destruct (truthy_bool (is_active (account user))); cbn.
      * destruct (create_access_token hmac cfg _ _ access_time access_random)
          as [access|e3]; cbn; [|intros [= <-]; eexists; by right].
        destruct (create_refresh_token hmac cfg _ refresh_time refresh_random)
          as [refresh|e4]; cbn; [done|intros [= <-]; eexists; by right].
      * intros [= <-]. eexists; by left.
    + intros [= <-]. eexists; by left.
    + intros [= <-]. eexists; by left.
  - intros [= <-]. eexists; by left.
  - rewrite (Hdb e1 eq_refl). intros [= <-]. eexists; by right.
Qed.

End Login.

Lemma login_does_not_reveal_accounts_witness :
  routers_auth.login demo_hmac truncating demo_digest demo_settings demo_accounts
    "mallory" "S3cret123" 0 500 0 500
  = Raise (HTTPException 401 "Incorrect username or password") ∧
  routers_auth.login demo_hmac truncating demo_digest demo_settings demo_accounts
    "bob" "wrong_password" 0 500 0 500
  = Raise (HTTPException 401 "Incorrect username or password").
Proof.
  split.
  - apply login_does_not_reveal_accounts. left. reflexivity.
  - apply login_does_not_reveal_accounts. right.
    eexists. split; [reflexivity|]. vm_compute. reflexivity.
Defined.

Lemma login_returns_witness :
  ∃ tokens,
    routers_auth.login demo_hmac truncating demo_digest demo_settings demo_accounts
      "alice" "S3cret123" 0 500 0 500 = Return tokens ∧
    ∃ user,
      demo_accounts "alice" = Return (Some user) ∧
      verify_password truncating demo_digest "S3cret123" (hashed_password user)
      = Return true ∧
      is_active (account user) = Some true ∧
      create_access_token demo_hmac demo_settings
        {["sub" := JInt (user_id (account user))]}
        (Some (timedelta_of 0 (ACCESS_TOKEN_EXPIRE_MINUTES demo_settings) 0))
        0 500 = Return (schemas.access_token tokens) ∧
      create_refresh_token demo_hmac demo_settings
        {["sub" := JInt (user_id (account user))]} 0 500
      = Return (schemas.refresh_token tokens) ∧
      schemas.token_type tokens = "bearer".
Proof.
  destruct (routers_auth.login demo_hmac truncating demo_digest demo_settings
              demo_accounts "alice" "S3cret123" 0 500 0 500)
    as [tokens|e] eqn:Hlogin; [|by vm_compute in Hlogin].
  exists tokens. split; [done|].
  exact (login_returns _ _ _ _ _ _ _ _ _ _ _ _ Hlogin).
Defined.

Lemma login_raises_witness :
  routers_auth.login demo_hmac truncating demo_digest demo_settings demo_accounts
    "bob" "hunter2222" 0 500 0 500
  = Raise (HTTPException 401 "Account is inactive") ∧
  ∃ detail, HTTPException 401 "Account is inactive" = HTTPException 401 detail ∨
            HTTPException 401 "Account is inactive" = HTTPException 500 detail.
Proof.
  assert (routers_auth.login demo_hmac truncating demo_digest demo_settings
            demo_accounts "bob" "hunter2222" 0 500 0 500
          = Raise (HTTPException 401 "Account is inactive"))
    as Hraised by (vm_compute; reflexivity).
  split; [exact Hraised|].
  refine (login_raises _ _ _ _ _ _ _ _ _ _ _ _ _ Hraised).
  intros e' He'. by vm_compute in He'.
Defined.

(** ** From the login to the current user *)


Lemma issued_claims_valid_unverified type (d : gmap string json) now e now' :
  d !! "nbf" = None → d !! "aud" = None →
  d !! "jti" = None → d !! "at_hash" = None →
  jwt._validate_claims now' (issued_claims type d now e) unverified = Return tt.
Proof.
  intros Hnbf Haud Hjti Hhash.
  destruct (issued_claims_fixed type d now e) as (Hiat & _ & _).
  unfold jwt._validate_claims, jwt._validate_iat, jwt._validate_nbf,
    jwt._validate_aud, jwt._validate_sub, jwt._validate_jti,
    jwt._validate_at_hash.
  rewrite Hiat.
  rewrite !issued_claims_other by done.
  rewrite sub_as_str_lookup_sub, !sub_as_str_lookup_ne by done.
  rewrite Hnbf, Haud, Hjti, Hhash. cbn.
  by destruct (d !! "sub").
Qed.




(** ** The refresh route *)

Section Refresh.

Context (hmac : string -> string -> jwt.signing_input -> string)
        (cfg : settings) (db : json -> result (option User))
        (token : jwt.token) (now : datetime)
        (nonce : string) (random_offset : timedelta)
        (access_time : datetime) (access_random : Z)
        (refresh_time : datetime) (refresh_random : Z).

Local Abbreviation refresh_call :=
  (routers_auth.refresh_token hmac cfg db token now nonce random_offset
     access_time access_random refresh_time refresh_random).

Local Abbreviation token_data user :=
  (<["nonce" := JStr nonce]> {["sub" := JInt (user_id user)]} : gmap string json).

Lemma refresh_token_inv (tokens : schemas.Token) :
  refresh_call = Return tokens →
  ∃ (payload : gmap string json) (sub : json) (user : User),
    decode_token hmac cfg now token (Some "refresh") = Return payload ∧
    payload !! "sub" = Some sub ∧
    db sub = Return (Some user) ∧ is_active user = Some true ∧
    create_access_token hmac cfg (token_data user)
      (Some (timedelta_of 0 (ACCESS_TOKEN_EXPIRE_MINUTES cfg) 0 + random_offset))
      access_time access_random = Return (schemas.access_token tokens) ∧
    create_refresh_token hmac cfg (token_data user) refresh_time refresh_random
    = Return (schemas.refresh_token tokens).
Proof.
  unfold routers_auth.refresh_token.
  case_bool_decide; cbn; [done|].
  destruct (decode_token hmac cfg now token (Some "refresh")) as [payload|e]
    eqn:Hdec; cbn; [|by destruct e].
  destruct (payload !! "sub") as [sub|] eqn:Hsub; cbn; [|done].
  destruct sub as [|b|n|s]; cbn; [done|..];
    (destruct (db _) as [[user|]|e] eqn:Hdb; cbn;
       [|done|by destruct e];
     destruct (is_active user) as [[]|] eqn:Hact; cbn; try done;
     destruct (create_access_token hmac cfg _ _ access_time access_random)
       as [access|e] eqn:Hacc; cbn; [|by destruct e];
     destruct (create_refresh_token hmac cfg _ refresh_time refresh_random)
       as [refresh|e] eqn:Href; cbn; [|by destruct e];
     intros [= <-]; eexists _, _, user; by repeat split).
Qed.

(** What the refresh route returns was issued for an active user that
    the database holds under the subject of a token accepted by
    [decode_token] as a refresh token. *)
Theorem refresh_returns (tokens : schemas.Token) :
  refresh_call = Return tokens →
  ∃ (payload : gmap string json) (sub : json) (user : User),
    decode_token hmac cfg now token (Some "refresh") = Return payload ∧
    payload !! "type" = Some (JStr "refresh") ∧
    payload !! "sub" = Some sub ∧
    db sub = Return (Some user) ∧ is_active user = Some true ∧
    claims_of (schemas.access_token tokens) !! "type" = Some (JStr "access") ∧
    claims_of (schemas.refresh_token tokens) !! "type" = Some (JStr "refresh") ∧
    claims_of (schemas.access_token tokens) !! "sub"
    = Some (JStr (py_str (JInt (user_id user)))).
Proof.
  intros (payload & sub & user & Hdec & Hsub & Hdb & Hact & Hacc & Href)%refresh_token_inv.
  exists payload, sub, user. repeat split; try done.
  - by apply (decode_token_type_checked_aux hmac cfg now token "refresh").
  - revert Hacc. rewrite create_access_token_unfold.
    case_bool_decide; [|done]. destruct (SECRET_KEY cfg); [|done].
    intros [= <-]. apply issued_claims_fixed.
  - revert Href. rewrite create_refresh_token_unfold.
    case_bool_decide; [|done]. destruct (SECRET_KEY cfg); [|done].
    intros [= <-]. apply issued_claims_fixed.
  - revert Hacc. rewrite create_access_token_unfold.
    case_bool_decide; [|done]. destruct (SECRET_KEY cfg); [|done].
    intros [= <-]. cbn. rewrite issued_claims_other by done.
    rewrite sub_as_str_lookup_sub.
    by rewrite lookup_insert_ne, lookup_singleton_eq.
Qed.

End Refresh.

Lemma created_access_claims hmac cfg data expires_delta now r token :
  create_access_token hmac cfg data expires_delta now r = Return token →
  claims_of token
  = issued_claims "access" data now (access_expire cfg expires_delta now r).
Proof.
  rewrite create_access_token_unfold. case_bool_decide; [|done].
  destruct (SECRET_KEY cfg); [|done]. by intros [= <-].
Qed.

Lemma created_refresh_claims hmac cfg data now r token :
  create_refresh_token hmac cfg data now r = Return token →
  claims_of token
  = issued_claims "refresh" data now
      (now + timedelta_of (REFRESH_TOKEN_EXPIRE_DAYS cfg) 0 r).
Proof.
  rewrite create_refresh_token_unfold. case_bool_decide; [|done].
  destruct (SECRET_KEY cfg); [|done]. by intros [= <-].
Qed.

(** Rotation: the access token the refresh route returns is never the
    token presented, and the refresh token it returns is not the token
    presented unless that one carries the very nonce drawn for the new
    pair. *)
Theorem refresh_rotates
    hmac cfg (db : json -> result (option User)) token now nonce random_offset
    access_time access_random refresh_time refresh_random
    (tokens : schemas.Token) :
  routers_auth.refresh_token hmac cfg db token now nonce random_offset
    access_time access_random refresh_time refresh_random = Return tokens →
  schemas.access_token tokens ≠ token ∧
  (claims_of token !! "nonce" ≠ Some (JStr nonce) →
   schemas.refresh_token tokens ≠ token).
Proof.
  intros (payload & sub & user & Hdec & _ & _ & _ & Hacc & Href)%refresh_token_inv.
  pose proof (decode_token_type_checked_aux _ _ _ _ "refresh" _
                ltac:(discriminate) Hdec) as Hty.
  apply decode_token_returns in Hdec as (secret & _ & _ & _ & -> & _ & _).
  apply created_access_claims in Hacc. apply created_refresh_claims in Href.
  split.
  - intros Heq. rewrite Heq in Hacc. unfold claims_of, signed in Hacc.
    rewrite Hacc in Hty.
    destruct (issued_claims_fixed "access"
                (<["nonce" := JStr nonce]> {["sub" := JInt (user_id user)]})
                access_time
                (access_expire cfg
                   (Some (timedelta_of 0 (ACCESS_TOKEN_EXPIRE_MINUTES cfg) 0
                          + random_offset)) access_time access_random))
      as (_ & Hty' & _).
    rewrite Hty' in Hty. discriminate.
  - intros Hnonce Heq. apply Hnonce. rewrite <- Heq, Href.
    rewrite issued_claims_other by done.
    rewrite sub_as_str_lookup_ne by done. by rewrite lookup_insert_eq.
Qed.

Lemma refresh_rotates_witness :
  ∃ tokens,
    routers_auth.refresh_token demo_hmac demo_settings demo_db_by_subject
      (signed demo_hmac "HS256" "s3cret"
         {["sub" := JStr "1"; "type" := JStr "refresh"; "exp" := JInt 600000]})
      0 "1700000000.5-4711" 30000000 0 500 0 500 = Return tokens ∧
    schemas.access_token tokens
    ≠ signed demo_hmac "HS256" "s3cret"
        {["sub" := JStr "1"; "type" := JStr "refresh"; "exp" := JInt 600000]} ∧
    schemas.refresh_token tokens
    ≠ signed demo_hmac "HS256" "s3cret"
        {["sub" := JStr "1"; "type" := JStr "refresh"; "exp" := JInt 600000]}.
Proof.
  destruct (routers_auth.refresh_token demo_hmac demo_settings demo_db_by_subject
              (signed demo_hmac "HS256" "s3cret"
                 {["sub" := JStr "1"; "type" := JStr "refresh";
                   "exp" := JInt 600000]})
              0 "1700000000.5-4711" 30000000 0 500 0 500)
    as [tokens|e] eqn:Hrefresh; [|by vm_compute in Hrefresh].
  exists tokens. split; [done|].
  destruct (refresh_rotates _ _ _ _ _ _ _ _ _ _ _ _ Hrefresh) as [Hacc Href].
  split; [exact Hacc|]. apply Href. vm_compute. discriminate.
Defined.

(** An access token made by [create_access_token] is turned away by the
    refresh route with the token-type error, expired or not. *)
Theorem refresh_rejects_access_token
    hmac cfg (db : json -> result (option User)) (data : gmap string json)
    expires_delta issued r token now nonce random_offset
    access_time access_random refresh_time refresh_random secret :
  SECRET_KEY cfg = Some secret → secret ≠ "" →
  data !! "nbf" = None → data !! "aud" = None →
  data !! "jti" = None → data !! "at_hash" = None →
  create_access_token hmac cfg data expires_delta issued r = Return token →
  routers_auth.refresh_token hmac cfg db token now nonce random_offset
    access_time access_random refresh_time refresh_random
  = Raise (HTTPException 401 "Invalid token type. Expected refresh token.").
Proof.
  intros Hkey Hne Hnbf Haud Hjti Hhash.
  rewrite create_access_token_unfold. case_bool_decide; [|done].
  rewrite Hkey. intros [= <-].
  unfold routers_auth.refresh_token, signed.
  rewrite bool_decide_eq_false_2 by done.
  rewrite (decode_token_rejects_type _ _ _ _ _ _ secret (Some "refresh"));
    first [ done
          | by apply issued_claims_valid_unverified
          | by rewrite issued_claims_type_mismatch_any ].
Qed.

Lemma refresh_rejects_access_token_witness :
  ∃ token,
    create_access_token demo_hmac demo_settings {["sub" := JInt 1]} None 0 500
    = Return token ∧
    routers_auth.refresh_token demo_hmac demo_settings demo_db_by_subject token
      60000000 "1700000000.5-4711" 30000000 60000000 500 60000000 500
    = Raise (HTTPException 401 "Invalid token type. Expected refresh token.").
Proof.
  destruct (create_access_token demo_hmac demo_settings {["sub" := JInt 1]}
              None 0 500) as [token|e] eqn:Hissued; [|by vm_compute in Hissued].
  exists token. split; [done|].
  apply (refresh_rejects_access_token demo_hmac demo_settings demo_db_by_subject
           {["sub" := JInt 1]} None 0 500 token _ _ _ _ _ _ _ "s3cret");
    try reflexivity; [discriminate|exact Hissued].
Defined.

(** Every failure of the refresh route is an HTTP error with status 400,
    401 or 500, the database raising what it may (short of an HTTP error
    of its own): an uncaught [TypeError] of the decoder, a database error
    and a signing error all become a 401. *)
Theorem refresh_raises
    hmac cfg (db : json -> result (option User)) token now nonce random_offset
    access_time access_random refresh_time refresh_random (e : exn) :
  (∀ sub e', db sub = Raise e' → is_HTTPException e' = false) →
  routers_auth.refresh_token hmac cfg db token now nonce random_offset
    access_time access_random refresh_time refresh_random = Raise e →
  ∃ status detail,
    e = HTTPException status detail ∧ (status = 400 ∨ status = 401 ∨ status = 500).
Proof.
  intros Hdb. unfold routers_auth.refresh_token.
  case_bool_decide; cbn; [intros [= <-]; eexists _, _; split; [done|by left]|].
  destruct (decode_token hmac cfg now token (Some "refresh")) as [payload|e1]
    eqn:Hdec; cbn.
  - assert (∀ sub,
      try_except
        (user ← db sub;
         match user with
         | None => Raise (HTTPException 401 "User not found")
         | Some user =>
             if negb (truthy_bool (is_active user))
             then Raise (HTTPException 401 "User not found or inactive")
             else
               access_token ← create_access_token hmac cfg
                 (<["nonce" := JStr nonce]> {["sub" := JInt (user_id user)]})
                 (Some (timedelta_of 0 (ACCESS_TOKEN_EXPIRE_MINUTES cfg) 0
                        + random_offset)) access_time access_random;
               refresh_token ← create_refresh_token hmac cfg
                 (<["nonce" := JStr nonce]> {["sub" := JInt (user_id user)]})
                 refresh_time refresh_random;
               Return {| schemas.access_token := access_token;
                         schemas.refresh_token := refresh_token;
                         schemas.token_type := "bearer" |}
         end)
        (fun e => if is_HTTPException e then Raise e
                  else Raise (HTTPException 401 ("Invalid token: " +:+ message e)))
      = Raise e →
      ∃ status detail,
        e = HTTPException status detail ∧
        (status = 400 ∨ status = 401 ∨ status = 500)) as Hbody.
    { intros sub. destruct (db sub) as [[user|]|e2] eqn:Hsub; cbn.
      - destruct (truthy_bool (is_active user)); cbn;
          [|intros [= <-]; eexists _, _; split; [done|by right; left]].
        rewrite create_access_token_unfold, create_refresh_token_unfold.
        case_bool_decide; cbn;
          [|intros [= <-]; eexists _, _; split; [done|by right; left]].
        destruct (SECRET_KEY cfg); cbn; [done|].
        intros [= <-]; eexists _, _; split; [done|by right; left].
      - intros [= <-]; eexists _, _; split; [done|by right; left].
      - rewrite (Hdb _ _ Hsub). intros [= <-].
        eexists _, _; split; [done|by right; left]. }
    destruct (payload !! "sub") as [[|b|n|s]|]; cbn;
      try (intros [= <-]; eexists _, _; split; [done|by right; left]);
      apply Hbody.
  - apply decode_token_raises_cases in Hdec as [[detail ->]|[->|[m ->]]]; cbn;
      intros [= <-]; eexists _, _; (split; [done|]); auto.
Qed.

Lemma refresh_raises_witness :
  routers_auth.refresh_token demo_hmac demo_settings demo_db_by_subject
    (jwt.Garbage "") 0 "1700000000.5-4711" 30000000 0 500 0 500
  = Raise (HTTPException 400 "Token is required") ∧
  ∃ status detail,
    HTTPException 400 "Token is required" = HTTPException status detail ∧
    (status = 400 ∨ status = 401 ∨ status = 500).
Proof.
  assert (routers_auth.refresh_token demo_hmac demo_settings demo_db_by_subject
            (jwt.Garbage "") 0 "1700000000.5-4711" 30000000 0 500 0 500
          = Raise (HTTPException 400 "Token is required"))
    as Hraised by (vm_compute; reflexivity).
  split; [exact Hraised|].
  refine (refresh_raises _ _ _ _ _ _ _ _ _ _ _ _ _ Hraised).
  intros sub e' He'. unfold demo_db_by_subject, demo_db in He'.
  repeat case_match; done.
Defined.



(** ** Collaboration requests *)

Section Collaborations.

Context (format_status : RequestStatus -> string).

Lemma update_returns db request_id new_status current_user now r db' :
  routers_collaborations.update_collaboration_request format_status db request_id
    new_status current_user now = Return (r, db') →
  ∃ req proj,
    requests db !! request_id = Some req ∧
    projects db !! collaboration.project_id req = Some proj ∧
    project.creator_id proj = user_id current_user ∧
    collaboration.status req = PENDING ∧
    collaboration.user_id r = collaboration.user_id req ∧
    collaboration.project_id r = collaboration.project_id req ∧
    collaboration.status r = new_status ∧
    collaboration.responded_at r = Some now ∧
    requests db' = <[request_id := r]> (requests db) ∧
    users db' = users db ∧
    ∃ proj',
      projects db' = <[collaboration.project_id req := proj']> (projects db) ∧
      project.creator_id proj' = project.creator_id proj ∧
      project.collaborators proj'
      = if bool_decide (new_status = ACCEPTED) then
          match users db !! collaboration.user_id req with
          | Some _ =>
              if bool_decide (collaboration.user_id req ∈ project.collaborators proj)
              then project.collaborators proj
              else (project.collaborators proj ++ [collaboration.user_id req])%list
          | None => project.collaborators proj
          end
        else project.collaborators proj.
Proof.
  unfold routers_collaborations.update_collaboration_request.
  destruct (requests db !! request_id) as [req|] eqn:Hreq; [|done].
  destruct (projects db !! collaboration.project_id req) as [proj|] eqn:Hproj;
    [|done].
  destruct (Z.eqb_spec (project.creator_id proj) (user_id current_user)); cbn;
    [|done].
  case_bool_decide as Hst; cbn; [|done].
  intros [= <- <-]. exists req, proj. cbn. repeat split; try done.
  eexists. cbn. repeat split; done.
Qed.

(** A request is updated only by the creator of its project and only
    while it is pending; the call then records the new status and the
    time of the answer, and touches no other request and no user. *)
Theorem update_only_by_creator_while_pending
    db request_id new_status current_user now r db' :
  routers_collaborations.update_collaboration_request format_status db request_id
    new_status current_user now = Return (r, db') →
  ∃ req proj,
    requests db !! request_id = Some req ∧
    projects db !! collaboration.project_id req = Some proj ∧
    project.creator_id proj = user_id current_user ∧
    collaboration.status req = PENDING ∧
    collaboration.status r = new_status ∧
    collaboration.responded_at r = Some now ∧
    requests db' !! request_id = Some r ∧
    (∀ j, j ≠ request_id → requests db' !! j = requests db !! j) ∧
    users db' = users db.
Proof.
  intros (req & proj & Hreq & Hproj & Hcre & Hst & _ & _ & Hnew & Hat & Hreqs
          & Husers & _)%update_returns.
  exists req, proj. repeat split; try done.
  - rewrite Hreqs. apply lookup_insert_eq.
  - intros j Hj. rewrite Hreqs. by apply lookup_insert_ne.
Qed.

(** An answered request is final: whoever calls, and with whatever
    status, neither the update nor the withdrawal of a request that is
    no longer pending goes through. *)
Theorem answered_request_is_final db request_id req :
  requests db !! request_id = Some req →
  collaboration.status req ≠ PENDING →
  (∀ new_status current_user now, ∃ status detail,
     routers_collaborations.update_collaboration_request format_status db request_id
    new_status current_user now
     = Raise (HTTPException status detail)) ∧
  (∀ current_user, ∃ status detail,
     routers_collaborations.delete_collaboration_request format_status db request_id
       current_user
     = Raise (HTTPException status detail)).
Proof.
  intros Hreq Hst. split; intros.
  - unfold routers_collaborations.update_collaboration_request. rewrite Hreq.
    destruct (projects db !! collaboration.project_id req); [|by eexists _, _].
    destruct (negb _); [by eexists _, _|].
    rewrite bool_decide_eq_false_2 by done. by eexists _, _.
  - unfold routers_collaborations.delete_collaboration_request. rewrite Hreq.
    destruct (negb _); [by eexists _, _|].
    rewrite bool_decide_eq_false_2 by done. by eexists _, _.
Qed.

(** Accepting a request makes the requesting user (when the user table
    holds one) a collaborator of the project, once: who was a
    collaborator stays one, and a list without repetition stays without
    repetition; any other answer leaves the collaborators as they were. *)
Theorem update_collaborators
    db request_id new_status current_user now r db' :
  routers_collaborations.update_collaboration_request format_status db request_id
    new_status current_user now = Return (r, db') →
  ∃ req proj proj',
    requests db !! request_id = Some req ∧
    projects db !! collaboration.project_id req = Some proj ∧
    projects db' !! collaboration.project_id req = Some proj' ∧
    (new_status = ACCEPTED → is_Some (users db !! collaboration.user_id req) →
     collaboration.user_id req ∈ project.collaborators proj') ∧
    (new_status ≠ ACCEPTED →
     project.collaborators proj' = project.collaborators proj) ∧
    (∀ x, x ∈ project.collaborators proj → x ∈ project.collaborators proj') ∧
    (NoDup (project.collaborators proj) → NoDup (project.collaborators proj')).
Proof.
  intros (req & proj & Hreq & Hproj & _ & _ & _ & _ & _ & _ & _ & _
          & proj' & Hprojs & _ & Hmem)%update_returns.
  exists req, proj, proj'. split; [done|]. split; [done|].
  split; [rewrite Hprojs; apply lookup_insert_eq|].
  rewrite Hmem. repeat split.
  - intros -> [u ->]. rewrite (bool_decide_eq_true_2 (ACCEPTED = ACCEPTED)) by done.
    destruct (bool_decide_reflect
                (collaboration.user_id req ∈ project.collaborators proj));
      [done|]. apply elem_of_app. right. by constructor.
  - intros Hne. by rewrite bool_decide_eq_false_2.
  - intros x Hx. repeat case_match; try done. apply elem_of_app. by left.
  - intros Hnd. repeat case_match; try done.
    apply NoDup_app. split; [done|]. split.
    + intros x Hx ->%list_elem_of_singleton. by case_bool_decide.
    + apply NoDup_singleton.
Qed.

End Collaborations.

Lemma demo_update_accepts :
  routers_collaborations.update_collaboration_request demo_format_status
    demo_tables 10 ACCEPTED alice 5
  = Return (demo_accepted, demo_tables_answered).
Proof. vm_compute. reflexivity. Qed.

Lemma update_only_by_creator_while_pending_witness :
  ∃ req proj,
    requests demo_tables !! 10 = Some req ∧
    projects demo_tables !! collaboration.project_id req = Some proj ∧
    project.creator_id proj = user_id alice ∧
    collaboration.status req = PENDING ∧
    collaboration.status demo_accepted = ACCEPTED ∧
    collaboration.responded_at demo_accepted = Some 5 ∧
    requests demo_tables_answered !! 10 = Some demo_accepted ∧
    (∀ j, j ≠ 10 →
          requests demo_tables_answered !! j = requests demo_tables !! j) ∧
    users demo_tables_answered = users demo_tables.
Proof.
  exact (update_only_by_creator_while_pending demo_format_status demo_tables 10
           ACCEPTED alice 5 demo_accepted demo_tables_answered
           demo_update_accepts).
Defined.

Lemma answered_request_is_final_witness :
  (∀ new_status current_user now, ∃ status detail,
     routers_collaborations.update_collaboration_request demo_format_status
       demo_tables_answered 10 new_status current_user now
     = Raise (HTTPException status detail)) ∧
  (∀ current_user, ∃ status detail,
     routers_collaborations.delete_collaboration_request demo_format_status
       demo_tables_answered 10 current_user
     = Raise (HTTPException status detail)).
Proof.
  apply (answered_request_is_final demo_format_status demo_tables_answered 10
           demo_accepted).
  - reflexivity.
  - discriminate.
Defined.

Lemma update_collaborators_witness :
  ∃ req proj proj',
    requests demo_tables !! 10 = Some req ∧
    projects demo_tables !! collaboration.project_id req = Some proj ∧
    projects demo_tables_answered !! collaboration.project_id req = Some proj' ∧
    (ACCEPTED = ACCEPTED →
     is_Some (users demo_tables !! collaboration.user_id req) →
     collaboration.user_id req ∈ project.collaborators proj') ∧
    (ACCEPTED ≠ ACCEPTED →
     project.collaborators proj' = project.collaborators proj) ∧
    (∀ x, x ∈ project.collaborators proj → x ∈ project.collaborators proj') ∧
    (NoDup (project.collaborators proj) → NoDup (project.collaborators proj')).
Proof.
  exact (update_collaborators demo_format_status demo_tables 10 ACCEPTED alice 5
           demo_accepted demo_tables_answered demo_update_accepts).
Defined.

(** ** One pending request per user and project *)

Lemma create_returns db project_id message role current_user new_id r db' :
  routers_collaborations.create_collaboration_request db project_id message role
    current_user new_id = Return (r, db') →
  ∃ proj,
    projects db !! project_id = Some proj ∧
    project.is_active proj = Some true ∧
    project.is_completed proj ≠ Some true ∧
    (user_id current_user ∉ project.collaborators proj) ∧
    project.creator_id proj ≠ user_id current_user ∧
    (∀ j s, requests db !! j = Some s →
            ¬ pending_for (user_id current_user) project_id s) ∧
    pending_for (user_id current_user) project_id r ∧
    collaboration.id r = new_id ∧
    requests db' = <[new_id := r]> (requests db) ∧
    projects db' = projects db ∧ users db' = users db.
Proof.
  unfold routers_collaborations.create_collaboration_request.
  destruct (projects db !! project_id) as [proj|] eqn:Hproj; [|done].
  destruct (project.is_active proj) as [[]|] eqn:Hact; cbn; try done.
  destruct (project.is_completed proj) as [[]|] eqn:Hcomp; cbn; try done;
    (case_bool_decide as Hmem; [done|];
     destruct (Z.eqb_spec (project.creator_id proj) (user_id current_user));
       [done|];
     case_bool_decide as Hpending; [done|];
     intros [= <- <-]; exists proj; cbn; repeat split; try done;
     try congruence;
     try (intros j s Hs Hp; apply Hpending; by exists j, s)).
Qed.

Lemma delete_returns format_status db request_id current_user db' :
  routers_collaborations.delete_collaboration_request format_status db request_id
    current_user = Return db' →
  ∃ req,
    requests db !! request_id = Some req ∧
    collaboration.user_id req = user_id current_user ∧
    collaboration.status req = PENDING ∧
    requests db' = delete request_id (requests db) ∧
    projects db' = projects db ∧ users db' = users db.
Proof.
  unfold routers_collaborations.delete_collaboration_request.
  destruct (requests db !! request_id) as [req|] eqn:Hreq; [|done].
  destruct (Z.eqb_spec (collaboration.user_id req) (user_id current_user)); cbn;
    [|done].
  case_bool_decide as Hst; cbn; [|done].
  intros [= <-]. by exists req.
Qed.

(** The routes keep the request table free of doubles: if no user has
    two pending requests for one project, then none has after a
    successful create (under a fresh primary key), update or delete. *)
Theorem step_keeps_unique_pending format_status (db db' : tables) :
  step format_status db db' → unique_pending db → unique_pending db'.
Proof.
  intros Hstep Huniq.
  destruct Hstep as [db pid msg role u new_id r db' Hfresh Hcreate
                    |db rid new_status u now r db' Hupdate
                    |db rid u db' Hdelete].
  - apply create_returns in Hcreate
      as (proj & _ & _ & _ & _ & _ & Hnone & Hr & _ & Hreqs & _ & _).
    intros i j a b user project. rewrite Hreqs.
    destruct (decide (i = new_id)) as [->|Hi], (decide (j = new_id)) as [->|Hj];
      [done|..].
    + rewrite lookup_insert_eq, lookup_insert_ne by done.
      intros [= <-] Hb (Hp & Hu & _) Hpb.
      destruct Hr as (Hrp & Hru & _). rewrite Hrp in Hp. rewrite Hru in Hu.
      subst. by destruct (Hnone j b Hb).
    + rewrite lookup_insert_eq, lookup_insert_ne by done.
      intros Ha [= <-] Hpa (Hp & Hu & _).
      destruct Hr as (Hrp & Hru & _). rewrite Hrp in Hp. rewrite Hru in Hu.
      subst. by destruct (Hnone i a Ha).
    + rewrite !lookup_insert_ne by done. apply Huniq.
  - apply update_returns in Hupdate
      as (req & proj & Hreq & _ & _ & Hst & Hu & Hp & _ & _ & Hreqs & _).
    assert (∀ user project, pending_for user project r →
                            pending_for user project req) as Hold.
    { intros user project (Hrp & Hru & _). unfold pending_for.
      by rewrite <- Hp, <- Hu. }
    intros i j a b user project. rewrite Hreqs.
    destruct (decide (i = rid)) as [->|Hi], (decide (j = rid)) as [->|Hj];
      [done|..].
    + rewrite lookup_insert_eq, lookup_insert_ne by done.
      intros [= <-] Hb Hpa Hpb. eapply Huniq; eauto.
    + rewrite lookup_insert_eq, lookup_insert_ne by done.
      intros Ha [= <-] Hpa Hpb. eapply Huniq; eauto.
    + rewrite !lookup_insert_ne by done. apply Huniq.
  - apply delete_returns in Hdelete as (req & _ & _ & _ & Hreqs & _).
    intros i j a b user project. rewrite Hreqs.
    intros [_ Ha]%lookup_delete_Some [_ Hb]%lookup_delete_Some.
    by apply Huniq.
Qed.

Lemma step_keeps_unique_pending_witness :
  step demo_format_status demo_tables demo_tables_answered ∧
  unique_pending demo_tables ∧ unique_pending demo_tables_answered.
Proof.
  assert (step demo_format_status demo_tables demo_tables_answered) as Hstep.
  { eapply step_update. exact demo_update_accepts. }
  assert (unique_pending demo_tables) as Huniq.
  { intros i j a b user project Ha Hb _ _.
    unfold demo_tables in Ha, Hb. cbn [requests] in Ha, Hb.
    apply lookup_singleton_Some in Ha as [<- _].
    by apply lookup_singleton_Some in Hb as [<- _]. }
  split; [exact Hstep|]. split; [exact Huniq|].
  exact (step_keeps_unique_pending demo_format_status _ _ Hstep Huniq).
Defined.

Lemma create_refuses_member db project_id message role current_user new_id proj :
  projects db !! project_id = Some proj →
  user_id current_user ∈ project.collaborators proj →
  ∃ detail,
    routers_collaborations.create_collaboration_request db project_id message role
      current_user new_id = Raise (HTTPException 400 detail).
Proof.
  intros Hproj Hmem.
  unfold routers_collaborations.create_collaboration_request. rewrite Hproj.
  destruct (negb _); [by eexists|]. destruct (truthy_bool _); [by eexists|].
  rewrite bool_decide_eq_true_2 by done. by eexists.
Qed.

(** Once the creator has accepted a request, the user it came from (a
    row of the user table) can file no further request for that project:
    the create route answers with an HTTP 400. *)
Theorem accepted_user_cannot_request_again
    format_status db request_id current_user now r db' req (u : User)
    message role new_id :
  routers_collaborations.update_collaboration_request format_status db request_id
    ACCEPTED current_user now = Return (r, db') →
  requests db !! request_id = Some req →
  users db !! collaboration.user_id req = Some u →
  user_id u = collaboration.user_id req →
  ∃ detail,
    routers_collaborations.create_collaboration_request db'
      (collaboration.project_id req) message role u new_id
    = Raise (HTTPException 400 detail).
Proof.
  intros (req' & proj & Hreq' & _ & _ & _ & _ & _ & _ & _ & _ & _
          & proj' & Hprojs & _ & Hmem)%update_returns Hreq Hu Hid.
  rewrite Hreq in Hreq'. injection Hreq' as <-.
  apply (create_refuses_member db' _ message role u new_id proj').
  - rewrite Hprojs. apply lookup_insert_eq.
  - rewrite Hmem, Hid, Hu. rewrite bool_decide_eq_true_2 by done.
    destruct (bool_decide_reflect
                (collaboration.user_id req ∈ project.collaborators proj));
      [done|]. apply elem_of_app. right. by constructor.
Qed.

Lemma accepted_user_cannot_request_again_witness :
  ∃ detail,
    routers_collaborations.create_collaboration_request demo_tables_answered
      (collaboration.project_id demo_request) (Some "again") None carol 11
    = Raise (HTTPException 400 detail).
Proof.
  apply (accepted_user_cannot_request_again demo_format_status demo_tables 10
           alice 5 demo_accepted demo_tables_answered demo_request carol
           (Some "again") None 11 demo_update_accepts); reflexivity.
Defined.

Lemma refresh_returns_witness :
  ∃ tokens,
    routers_auth.refresh_token demo_hmac demo_settings demo_db_by_subject
      (signed demo_hmac "HS256" "s3cret"
         {["sub" := JStr "1"; "type" := JStr "refresh"; "exp" := JInt 600000]})
      0 "1700000000.5-4711" 30000000 0 500 0 500 = Return tokens ∧
    ∃ (payload : gmap string json) (sub : json) (user : User),
      decode_token demo_hmac demo_settings 0
        (signed demo_hmac "HS256" "s3cret"
           {["sub" := JStr "1"; "type" := JStr "refresh"; "exp" := JInt 600000]})
        (Some "refresh") = Return payload ∧
      payload !! "type" = Some (JStr "refresh") ∧
      payload !! "sub" = Some sub ∧
      demo_db_by_subject sub = Return (Some user) ∧ is_active user = Some true ∧
      claims_of (schemas.access_token tokens) !! "type" = Some (JStr "access") ∧
      claims_of (schemas.refresh_token tokens) !! "type" = Some (JStr "refresh") ∧
      claims_of (schemas.access_token tokens) !! "sub"
      = Some (JStr (py_str (JInt (user_id user)))).
Proof.
  destruct (routers_auth.refresh_token demo_hmac demo_settings demo_db_by_subject
              (signed demo_hmac "HS256" "s3cret"
                 {["sub" := JStr "1"; "type" := JStr "refresh";
                   "exp" := JInt 600000]})
              0 "1700000000.5-4711" 30000000 0 500 0 500)
    as [tokens|e] eqn:Hrefresh; [|by vm_compute in Hrefresh].
  exists tokens. split; [done|].
  exact (refresh_returns _ _ _ _ _ _ _ _ _ _ _ _ Hrefresh).
Defined.
